(** * The achievement verification workflow of [src/index.ts]

    A shallow embedding of the request handlers that create, edit, delete,
    verify and list achievements, of the attendance KPI of the coach
    report, of the registration, login and profile routes, and of the port
    fallback of [startServer].  The persistent store (Prisma) is modelled as
    finite maps keyed by record id; a handler is a function from the request
    and the store to the HTTP response and the store after the request. *)

From Stdlib Require Import ZArith QArith Qround Floats Uint63 Ascii.
From stdpp Require Import gmap strings pretty list fin_maps sorting.

Local Open Scope string_scope.

(** ** Values of a JSON request body

    The handlers destructure [req.body] without validating it.  The textual
    fields of the operations arrive as a JSON string, as [null], or not at all
    (the destructured variable is then [undefined]). *)

Inductive jsval :=
  | JUndefined
  | JNull
  | JString (s : string).

Global Instance jsval_eq_dec : EqDecision jsval.
Proof. solve_decision. Defined.

(** JavaScript truthiness, as used by [!x] and [a || b]. *)
Definition truthy (v : jsval) : bool :=
  match v with
  | JString s => negb (String.eqb s "")
  | _ => false
  end.

(** Truthiness of a nullable string column ([string | null]). *)
Definition truthy_column (v : option string) : bool :=
  match v with
  | Some s => negb (String.eqb s "")
  | None => false
  end.

(** ** Records of the store *)

Module User.
(** The columns of a user the handlers read. *)
Record t := mk {
  id : string;
  username : string;
  role : string;
  sport : option string
}.
End User.

Module Achievement.
(** Modelled from the spec: the columns of an achievement (section 3); the
    Prisma schema that declares them is not among the sources.  [status] is
    a text column: the handlers compare it with string literals and write
    the request's [decision] into it as it comes.  Dates are milliseconds
    since the epoch. *)
Record t := mk {
  id : string;
  ownerId : string;
  title : string;
  date : Z;
  description : option string;
  proof : option string;
  sport : string;
  venue : string;
  status : string;
  decisionReason : option string;
  verifiedById : option string;
  verifiedByName : option string;
  verifiedAt : option Z;
  createdAt : Z;
  updatedAt : Z
}.

Global Instance eq_dec : EqDecision t.
Proof. solve_decision. Defined.
End Achievement.

Module ScheduleRequest.
(** Modelled from the spec: a schedule request (section 3) with the columns
    the coach report reads. *)
Record t := mk {
  id : string;
  scheduleId : string;
  playerId : string;
  status : string;
  createdAt : Z
}.
End ScheduleRequest.

Module Schedule.
Record t := mk {
  id : string;
  coachId : string;
  date : Z
}.
End Schedule.

(** ** What the store does with the [data] of an update

    Prisma leaves a column alone when its entry in [data] is [undefined],
    writes [null] into a nullable column, and throws a validation error when
    [null] is given for a required column. *)

Definition set_required (v : jsval) (old : string) : option string :=
  match v with
  | JUndefined => Some old
  | JNull => None
  | JString s => Some s
  end.

Definition set_nullable (v : jsval) (old : option string) : option string :=
  match v with
  | JUndefined => old
  | JNull => None
  | JString s => Some s
  end.

(** ** HTTP responses *)

Record PendingRow := mkPendingRow {
  row : Achievement.t;
  (* [include: { owner: { select: { username: true } } }] *)
  owner : option string
}.

Record Kpis := mkKpis {
  (* the six counters beside it are left out *)
  attendanceRatePct : option float
}.

Inductive Body :=
  | ErrorBody (error : string)
  | AchievementBody (a : Achievement.t)
  | PendingBody (rows : list PendingRow)
  | KpisBody (k : Kpis)
  | EmptyBody.

Record Response := mkResponse {
  statusCode : Z;
  body : Body
}.

Definition json (b : Body) : Response := mkResponse 200 b.
Definition status_json (c : Z) (error : string) : Response :=
  mkResponse c (ErrorBody error).

(** The [catch] of every handler. *)
Definition server_error : Response := status_json 500 "Server error".

(** Modelled from the spec: the error taxonomy of section 7 and the status
    each class maps to.  [AuthorizationError] and [ConflictError] share 403;
    the conflict is told apart by its message. *)
Inductive ErrorClass :=
  | ValidationError
  | Unauthenticated
  | AuthorizationError
  | NotFoundError
  | ConflictError
  | ServerError.

Definition error_class (r : Response) : option ErrorClass :=
  match body r with
  | ErrorBody msg =>
      match statusCode r with
      | 400 => Some ValidationError
      | 401 => Some Unauthenticated
      | 403 =>
          if String.eqb msg "Cannot delete an approved achievement."
          then Some ConflictError else Some AuthorizationError
      | 404 => Some NotFoundError
      | 500 => Some ServerError
      | _ => None
      end%Z
  | _ => None
  end.

(** ** The achievement routes *)

Section Handlers.

(** [new Date(s)] on a string: the instant it denotes, or [None] for an
    Invalid Date.  Date parsing belongs to the JavaScript runtime. *)
Variable parse_date : string → option Z.

Definition new_Date (v : jsval) : option Z :=
  match v with
  | JUndefined => None
  | JNull => Some 0%Z
  | JString s => parse_date s
  end.

(** The guard [!coach || coach.role !== "Coach" || !coach.sport] the coach
    routes open with. *)
Definition not_a_coach (coach : option User.t) : bool :=
  match coach with
  | None => true
  | Some c =>
      negb (String.eqb (User.role c) "Coach")
      || negb (truthy_column (User.sport c))
  end.

(** *** POST /api/achievements *)

Record CreateBody := mkCreateBody {
  c_title : jsval;
  c_date : jsval;
  c_description : jsval;
  c_proof : jsval;
  c_sport : jsval;
  c_venue : jsval
}.

(** A required column of a new record: anything but a string makes the
    store throw. *)
Definition create_required (v : jsval) : option string :=
  match v with
  | JString s => Some s
  | _ => None
  end.

(** [prisma.achievement.create]: the store assigns the id [new_id] and the
    creation time; a required column without a string, an invalid date or
    an id already taken makes it throw.  The columns the route does not
    give take their defaults. *)
Definition create_record (now : Z) (new_id userId : string) (b : CreateBody)
    (db : gmap string Achievement.t) : option Achievement.t :=
  match db !! new_id with
  | Some _ => None
  | None =>
      title ← create_required (c_title b) ;
      date ← new_Date (c_date b) ;
      sport ← create_required (c_sport b) ;
      venue ← create_required (c_venue b) ;
      Some {| Achievement.id := new_id;
              Achievement.ownerId := userId;
              Achievement.title := title;
              Achievement.date := date;
              Achievement.description := set_nullable (c_description b) None;
              Achievement.proof := set_nullable (c_proof b) None;
              Achievement.sport := sport;
              Achievement.venue := venue;
              Achievement.status := "PENDING";
              Achievement.decisionReason := None;
              Achievement.verifiedById := None;
              Achievement.verifiedByName := None;
              Achievement.verifiedAt := None;
              Achievement.createdAt := now;
              Achievement.updatedAt := now |}
  end.

Definition post_achievement (now : Z) (new_id userId : string)
    (b : CreateBody) (db : gmap string Achievement.t)
    : Response * gmap string Achievement.t :=
  if negb (truthy (c_title b)) || negb (truthy (c_date b))
     || negb (truthy (c_sport b)) || negb (truthy (c_venue b))
  then (status_json 400 "Missing required fields", db)
  else
    match create_record now new_id userId b db with
    | Some newAchievement =>
        (mkResponse 201 (AchievementBody newAchievement),
         <[new_id := newAchievement]> db)
    | None => (server_error, db)
    end.

(** *** PUT /api/achievements/:id *)

Record UpdateBody := mkUpdateBody {
  u_title : jsval;
  u_sport : jsval;
  u_date : jsval;
  u_venue : jsval;
  u_description : jsval
}.

Definition not_found_or_unauthorized : Response :=
  status_json 404 "Achievement not found or unauthorized".

(** The [data] of the owner's update applied to the stored record. *)
Definition update_record (now : Z) (b : UpdateBody) (a : Achievement.t)
    : option Achievement.t :=
  title ← set_required (u_title b) (Achievement.title a) ;
  sport ← set_required (u_sport b) (Achievement.sport a) ;
  date ← new_Date (u_date b) ;
  venue ← set_required (u_venue b) (Achievement.venue a) ;
  Some {| Achievement.id := Achievement.id a;
          Achievement.ownerId := Achievement.ownerId a;
          Achievement.title := title;
          Achievement.date := date;
          Achievement.description :=
            set_nullable (u_description b) (Achievement.description a);
          Achievement.proof := Achievement.proof a;
          Achievement.sport := sport;
          Achievement.venue := venue;
          Achievement.status := Achievement.status a;
          Achievement.decisionReason := Achievement.decisionReason a;
          Achievement.verifiedById := Achievement.verifiedById a;
          Achievement.verifiedByName := Achievement.verifiedByName a;
          Achievement.verifiedAt := Achievement.verifiedAt a;
          Achievement.createdAt := Achievement.createdAt a;
          Achievement.updatedAt := now |}.

Definition put_achievement (now : Z) (userId id : string) (b : UpdateBody)
    (db : gmap string Achievement.t)
    : Response * gmap string Achievement.t :=
  match db !! id with
  | None => (not_found_or_unauthorized, db)
  | Some achievement =>
      if negb (String.eqb (Achievement.ownerId achievement) userId)
      then (not_found_or_unauthorized, db)
      else
        match update_record now b achievement with
        | Some updatedAchievement =>
            (json (AchievementBody updatedAchievement),
             <[id := updatedAchievement]> db)
        | None => (server_error, db)
        end
  end.

(** *** DELETE /api/achievements/:id *)

Definition delete_achievement (userId id : string)
    (db : gmap string Achievement.t)
    : Response * gmap string Achievement.t :=
  match db !! id with
  | None => (not_found_or_unauthorized, db)
  | Some achievement =>
      if negb (String.eqb (Achievement.ownerId achievement) userId)
      then (not_found_or_unauthorized, db)
      else if String.eqb (Achievement.status achievement) "APPROVED"
      then (status_json 403 "Cannot delete an approved achievement.", db)
      else (mkResponse 204 EmptyBody, delete id db)
  end.

(** *** PATCH /api/achievements/:id/verify *)

Record VerifyBody := mkVerifyBody {
  decision : jsval;
  reason : jsval
}.

(** The [data] of the coach's update applied to the stored record; the
    columns [data] does not name keep their values. *)
Definition verify_record (now : Z) (coach : User.t) (b : VerifyBody)
    (a : Achievement.t) : option Achievement.t :=
  status ← set_required (decision b) (Achievement.status a) ;
  Some {| Achievement.id := Achievement.id a;
          Achievement.ownerId := Achievement.ownerId a;
          Achievement.title := Achievement.title a;
          Achievement.date := Achievement.date a;
          Achievement.description := Achievement.description a;
          Achievement.proof := Achievement.proof a;
          Achievement.sport := Achievement.sport a;
          Achievement.venue := Achievement.venue a;
          Achievement.status := status;
          Achievement.decisionReason :=
            set_nullable
              (if decide (decision b = JString "REJECTED")
               then reason b else JNull)
              (Achievement.decisionReason a);
          Achievement.verifiedById := Some (User.id coach);
          Achievement.verifiedByName := Some (User.username coach);
          Achievement.verifiedAt := Some now;
          Achievement.createdAt := Achievement.createdAt a;
          Achievement.updatedAt := Achievement.updatedAt a |}.

Definition patch_achievement_verify (now : Z) (users : gmap string User.t)
    (coachId id : string) (b : VerifyBody) (db : gmap string Achievement.t)
    : Response * gmap string Achievement.t :=
  let coach := users !! coachId in
  let achievement := db !! id in
  if not_a_coach coach
  then (status_json 403 "Forbidden: Not a coach", db)
  else
    match coach, achievement with
    | None, _ => (status_json 403 "Forbidden: Not a coach", db)
    | Some _, None => (status_json 404 "Achievement not found", db)
    | Some coach, Some achievement =>
        if negb (bool_decide
                   (Some (Achievement.sport achievement) = User.sport coach))
        then (status_json 403
                "Forbidden: Cannot verify achievement for a different sport",
              db)
        else
          match verify_record now coach b achievement with
          | Some updatedAchievement =>
              (json (AchievementBody updatedAchievement),
               <[id := updatedAchievement]> db)
          | None => (server_error, db)
          end
    end.

(** *** GET /api/achievements/pending *)

(** [orderBy: { createdAt: "desc" }]: the newer of two rows comes first. *)
Definition newer_first (a b : Achievement.t) : Prop :=
  (Achievement.createdAt b ≤ Achievement.createdAt a)%Z.

Global Instance newer_first_dec : RelDecision newer_first.
Proof. intros a b. unfold newer_first. apply _. Defined.

(** The [where] clause of the query. *)
Definition pending_in (sport : string) (a : Achievement.t) : Prop :=
  Achievement.status a = "PENDING" ∧ Achievement.sport a = sport.

Global Instance pending_in_dec sport a : Decision (pending_in sport a).
Proof. unfold pending_in. apply _. Defined.

(** [prisma.achievement.findMany] with the [where], [include] and [orderBy]
    of the route: the rows of the table that match, sorted, each joined with
    its owner's username. *)
Definition find_pending (users : gmap string User.t) (sport : string)
    (db : gmap string Achievement.t) : list PendingRow :=
  (λ a, mkPendingRow a (User.username <$> users !! Achievement.ownerId a))
    <$> merge_sort newer_first
          (filter (pending_in sport) (snd <$> map_to_list db)).

Definition get_achievements_pending (users : gmap string User.t)
    (userId : string) (db : gmap string Achievement.t) : Response :=
  let coach := users !! userId in
  if not_a_coach coach
  then status_json 403 "Forbidden"
  else
    match coach ≫= User.sport with
    | None => status_json 403 "Forbidden"
    | Some sport => json (PendingBody (find_pending users sport db))
    end.

(** *** GET /api/reports/coach: the attendance rate *)

(** A count ([Array.prototype.length]) as a JavaScript number. *)
Definition number_of_length {A} (l : list A) : float :=
  PrimFloat.of_uint63 (Uint63.of_Z (Z.of_nat (length l))).

(** [Math.round] on binary64: the nearest integer, a tie going up.  Adding
    and subtracting 2^52 rounds to an integer; the result is corrected to the
    floor and then to the nearer neighbour.  Arguments of magnitude 2^52 and
    above are integers already. *)
Definition two52 : float := 4503599627370496%float.

Definition Math_floor (x : float) : float :=
  if PrimFloat.leb two52 (PrimFloat.abs x) then x
  else
    let r :=
      if PrimFloat.ltb x 0%float
      then PrimFloat.add (PrimFloat.sub x two52) two52
      else PrimFloat.sub (PrimFloat.add x two52) two52 in
    if PrimFloat.ltb x r then PrimFloat.sub r 1%float else r.

Definition Math_round (x : float) : float :=
  let f := Math_floor x in
  if PrimFloat.ltb (PrimFloat.sub x f) 0.5%float
  then f else PrimFloat.add f 1%float.

(** The [where] clause of [scheduleRequests30d]: requests under a schedule
    of this coach, created at or after the cutoff. *)
Definition under_coach_since (schedules : gmap string Schedule.t)
    (coachId : string) (since : Z) (r : ScheduleRequest.t) : Prop :=
  Schedule.coachId <$> schedules !! ScheduleRequest.scheduleId r = Some coachId
  ∧ (since ≤ ScheduleRequest.createdAt r)%Z.

Global Instance under_coach_since_dec schedules coachId since r :
  Decision (under_coach_since schedules coachId since r).
Proof. unfold under_coach_since. apply _. Defined.

Definition approved (r : ScheduleRequest.t) : Prop :=
  ScheduleRequest.status r = "APPROVED".

Global Instance approved_dec r : Decision (approved r).
Proof. unfold approved. apply _. Defined.

(** The [attendanceRatePct] entry of [kpis]. *)
Definition attendance_rate (scheduleRequests30d : list ScheduleRequest.t)
    : option float :=
  if (0 <? Z.of_nat (length scheduleRequests30d))%Z
  then Some (Math_round
               (PrimFloat.mul
                  (PrimFloat.div
                     (number_of_length (filter approved scheduleRequests30d))
                     (number_of_length scheduleRequests30d))
                  100%float))
  else None.

(** [thirtyDaysAgo] is the instant [new Date().setDate(getDate() - 30)]
    yields in the server's time zone; the clock hands it in. *)
Definition get_reports_coach (thirtyDaysAgo : Z) (users : gmap string User.t)
    (schedules : gmap string Schedule.t)
    (requests : gmap string ScheduleRequest.t) (coachId : string)
    : Response :=
  let coach := users !! coachId in
  if not_a_coach coach
  then status_json 403 "Forbidden"
  else
    match coach with
    | None => status_json 403 "Forbidden"
    | Some coach =>
        let scheduleRequests30d :=
          filter (under_coach_since schedules (User.id coach) thirtyDaysAgo)
                 (snd <$> map_to_list requests) in
        json (KpisBody (mkKpis (attendance_rate scheduleRequests30d)))
    end.

(** ** The lifecycle: requests against the achievement table *)

Inductive Request :=
  | Create (new_id userId : string) (b : CreateBody)
  | Update (userId id : string) (b : UpdateBody)
  | Delete (userId id : string)
  | Verify (coachId id : string) (b : VerifyBody).

Definition handle (now : Z) (users : gmap string User.t) (req : Request)
    (db : gmap string Achievement.t)
    : Response * gmap string Achievement.t :=
  match req with
  | Create new_id userId b => post_achievement now new_id userId b db
  | Update userId id b => put_achievement now userId id b db
  | Delete userId id => delete_achievement userId id db
  | Verify coachId id b => patch_achievement_verify now users coachId id b db
  end.

(** The tables reachable from the empty one, whatever the users, the clock
    and the requests. *)
Inductive reachable : gmap string Achievement.t → Prop :=
  | reachable_empty : reachable ∅
  | reachable_step now users req db :
      reachable db → reachable (handle now users req db).2.

End Handlers.

(** ** Who may act *)

(** The caller is a Coach whose sport [s] is set (a non-empty string). *)
Definition coach_with_sport (caller : option User.t) (s : string) : Prop :=
  ∃ c, caller = Some c ∧ User.role c = "Coach" ∧ User.sport c = Some s
       ∧ s ≠ "".

(** The record is absent, or it is someone else's. *)
Definition not_mine (userId id : string) (db : gmap string Achievement.t)
    : Prop :=
  db !! id = None
  ∨ ∃ a, db !! id = Some a ∧ Achievement.ownerId a ≠ userId.

(** ** What the specification words say, for comparison *)

(** A request field as the column it is meant to fill: a string, or null
    when it is [null] or left out. *)
Definition sent (v : jsval) : option string :=
  match v with
  | JString s => Some s
  | _ => None
  end.

(** [decisionReason = reason] when [decision = REJECTED], null otherwise. *)
Definition stated_decisionReason (d : string) (reason : jsval)
    : option string :=
  if decide (d = "REJECTED") then sent reason else None.

(** [round(100 * approvedCount / totalCount)] over the rationals, a tie
    going up as [Math.round] has it. *)
Definition stated_rate (approvedCount totalCount : Z) : Z :=
  Qfloor (Qplus (Qdiv (Qmult (inject_Z 100) (inject_Z approvedCount))
                      (inject_Z totalCount))
                (Qmake 1 2)).

(** ** Sample data: the scenarios of section 8 *)

Definition carol : User.t := User.mk "C" "carol" "Coach" (Some "cricket").
Definition frank : User.t := User.mk "F" "frank" "Coach" (Some "football").
Definition pat : User.t := User.mk "P" "pat" "Player" (Some "cricket").
Definition quinn : User.t := User.mk "Q" "quinn" "Player" (Some "cricket").

Definition users_ex : gmap string User.t :=
  {[ "C" := carol; "F" := frank; "P" := pat; "Q" := quinn ]}.

Definition parse_ex (s : string) : option Z :=
  if decide (s = "2024-01-10") then Some 1704844800000%Z
  else if decide (s = "2024-03-02") then Some 1709337600000%Z
  else None.

Definition state_champion (status : string) (decisionReason : option string)
    (verifier : option User.t) (verifiedAt : option Z) : Achievement.t :=
  {| Achievement.id := "a1";
     Achievement.ownerId := "P";
     Achievement.title := "State Champion";
     Achievement.date := 1704844800000;
     Achievement.description := None;
     Achievement.proof := None;
     Achievement.sport := "cricket";
     Achievement.venue := "Delhi";
     Achievement.status := status;
     Achievement.decisionReason := decisionReason;
     Achievement.verifiedById := User.id <$> verifier;
     Achievement.verifiedByName := User.username <$> verifier;
     Achievement.verifiedAt := verifiedAt;
     Achievement.createdAt := 1000;
     Achievement.updatedAt := 1000 |}.

Definition pending_ex : Achievement.t :=
  state_champion "PENDING" None None None.
Definition approved_ex : Achievement.t :=
  state_champion "APPROVED" None (Some carol) (Some 2000%Z).
Definition rejected_ex : Achievement.t :=
  state_champion "REJECTED" (Some "blurry proof") (Some carol) (Some 2000%Z).

Definition district_cup : Achievement.t :=
  {| Achievement.id := "a2";
     Achievement.ownerId := "Q";
     Achievement.title := "District Cup";
     Achievement.date := 1709337600000;
     Achievement.description := Some "runner-up";
     Achievement.proof := None;
     Achievement.sport := "cricket";
     Achievement.venue := "Pune";
     Achievement.status := "PENDING";
     Achievement.decisionReason := None;
     Achievement.verifiedById := None;
     Achievement.verifiedByName := None;
     Achievement.verifiedAt := None;
     Achievement.createdAt := 3000;
     Achievement.updatedAt := 3000 |}.

Definition create_ex : CreateBody :=
  {| c_title := JString "State Champion";
     c_date := JString "2024-01-10";
     c_description := JUndefined;
     c_proof := JUndefined;
     c_sport := JString "cricket";
     c_venue := JString "Delhi" |}.

Definition retitle_ex : UpdateBody :=
  {| u_title := JString "National Champion";
     u_sport := JString "cricket";
     u_date := JString "2024-01-10";
     u_venue := JString "Delhi";
     u_description := JUndefined |}.

(** [approvedCount] approved requests among [totalCount], all under the
    schedule "s1" of coach "C" and created at instant 5000. *)
Definition requests_ex (approvedCount totalCount : nat)
    : gmap string ScheduleRequest.t :=
  list_to_map
    ((λ i : nat,
        (pretty i,
         ScheduleRequest.mk (pretty i) "s1" "P"
           (if bool_decide (i < approvedCount) then "APPROVED" else "PENDING")
           5000))
       <$> seq 0 totalCount).

Definition schedules_ex : gmap string Schedule.t :=
  {[ "s1" := Schedule.mk "s1" "C" 9000 ]}.

(** The table after pat has created her achievement and carol has rejected
    it without giving a reason. *)
Definition rejected_without_reason : gmap string Achievement.t :=
  (handle parse_ex 2000 users_ex
     (Verify "C" "a1" (mkVerifyBody (JString "REJECTED") JUndefined))
     (handle parse_ex 1000 users_ex (Create "a1" "P" create_ex) ∅).2).2.

(** The table after pat has created her achievement and carol has rejected
    it for a "blurry proof". *)
Definition rejected_with_reason : gmap string Achievement.t :=
  (handle parse_ex 2000 users_ex
     (Verify "C" "a1"
        (mkVerifyBody (JString "REJECTED") (JString "blurry proof")))
     (handle parse_ex 1000 users_ex (Create "a1" "P" create_ex) ∅).2).2.

(** The table with both sample achievements awaiting a decision. *)
Definition queue_ex : gmap string Achievement.t :=
  {[ "a1" := pending_ex; "a2" := district_cup ]}.

(** ** The owner's list: GET /api/achievements/my *)

(** The [where] clause of the query. *)
Definition owned_by (userId : string) (a : Achievement.t) : Prop :=
  Achievement.ownerId a = userId.

Global Instance owned_by_dec userId a : Decision (owned_by userId a).
Proof. unfold owned_by. apply _. Defined.

(** [prisma.achievement.findMany] with the [where] and [orderBy] of the
    route; the body of the 200 the route answers with. *)
Definition get_achievements_my (userId : string)
    (db : gmap string Achievement.t) : list Achievement.t :=
  merge_sort newer_first (filter (owned_by userId) (snd <$> map_to_list db)).

(** ** Starting the server: [startServer] *)

(** What [app.listen(port)] comes to: the server listens, or it emits an
    ["error"] event with a code. *)
Inductive ListenResult :=
  | Listens
  | ErrorEvent (code : string).

Inductive StartOutcome :=
  | Listening (port : Z)
  (* [process.exit(1)] *)
  | Exited
  (* [listen] throws a RangeError for a port outside 0..65535 *)
  | BadPort (port : Z).

(** [startServer(port)] with at most [tries] calls of [listen] left. *)
Fixpoint startServer_from (listen : Z → ListenResult) (tries : nat) (port : Z)
    : StartOutcome :=
  if (port <? 0)%Z || (65535 <? port)%Z then BadPort port
  else
    match listen port with
    | Listens => Listening port
    | ErrorEvent code =>
        if String.eqb code "EADDRINUSE"
        then
          match tries with
          | O => BadPort (port + 1)
          | S tries => startServer_from listen tries (port + 1)
          end
        else Exited
    end.

(** From [port] on there are [65535 - port] further ports to fall back
    to; the call after the last of them is out of range. *)
Definition startServer (listen : Z → ListenResult) (port : Z)
    : StartOutcome :=
  startServer_from listen (Z.to_nat (65535 - port)) port.

(** ** Accounts: the user table as the auth and profile routes see it *)

Module Profile.
(** Modelled from the spec: the columns of a user but the password hash;
    the Prisma schema that declares them is not among the sources.  [user]
    holds the four columns the achievement routes read. *)
Record t := mk {
  user : User.t;
  email : string;
  name : option string;
  dob : option Z;
  gender : option string;
  mobile : option string;
  profilePic : option string;
  height : option float;
  weight : option float;
  bloodgroup : option string;
  address : option string
}.
End Profile.

Module Account.
Record t := mk {
  profile : Profile.t;
  passwordHash : string
}.
End Account.

(** [const { passwordHash, ...rest } = u; return rest]. *)
Definition toPublicUser (u : Account.t) : Profile.t := Account.profile u.

(** The user table as the achievement routes read it. *)
Definition users_of (accounts : gmap string Account.t)
    : gmap string User.t :=
  (λ u, Profile.user (Account.profile u)) <$> accounts.

(** A primitive value of a JSON body: absent, [null], a string, a number or
    a boolean. *)
Inductive jsprim :=
  | PUndefined
  | PNull
  | PString (s : string)
  | PNumber (x : float)
  | PBool (b : bool).

Definition prim_truthy (v : jsprim) : bool :=
  match v with
  | PUndefined | PNull => false
  | PString s => negb (String.eqb s "")
  | PNumber x => negb (PrimFloat.eqb x 0%float) && negb (PrimFloat.is_nan x)
  | PBool b => b
  end.

(** Who logged in or out: the [sid] cookie of the response. *)
Inductive CookieAction :=
  | NoCookie
  | SetSid (token : string)
  | ClearSid.

Inductive UserBody :=
  | UserError (error : string)
  | PublicUser (u : Profile.t)
  | OkTrue.

Record UserResponse := mkUserResponse {
  u_statusCode : Z;
  u_cookie : CookieAction;
  u_body : UserBody
}.

Definition user_error (c : Z) (error : string) : UserResponse :=
  mkUserResponse c NoCookie (UserError error).

(** [/^[0-9]{10}$/.test(s)] *)
Definition is_digit (c : ascii) : bool :=
  (48 <=? nat_of_ascii c)%nat && (nat_of_ascii c <=? 57)%nat.

Definition ten_digits (s : string) : bool :=
  (String.length s =? 10)%nat && forallb is_digit (String.list_ascii_of_string s).

Section Accounts.

(** What the runtime and the libraries supply. *)
Variables toLowerCase trim : string → string.
Variable parse_date : string → option Z.
(* [bcrypt.hash(password, 12)] with the salt it draws *)
Variable bcrypt_hash : string → string → string.
Variable bcrypt_compare : string → string → bool.
Variable jwt_sign : string → string.
Variable jwt_verify : string → option string.
(* [Number(s)] on a string and [String(x)] on a number *)
Variable Number_of_string : string → float.
Variable Number_toString : float → string.
(* what the store makes of a number for [height] or [weight]: the value it
   writes, or [None] when it throws *)
Variable store_number : float → option (option float).

Definition String_ (v : jsprim) : string :=
  match v with
  | PUndefined => "undefined"
  | PNull => "null"
  | PString s => s
  | PNumber x => Number_toString x
  | PBool true => "true"
  | PBool false => "false"
  end.

Definition Number_ (v : jsprim) : float :=
  match v with
  | PUndefined => PrimFloat.nan
  | PNull => 0%float
  | PString s => Number_of_string s
  | PNumber x => x
  | PBool true => 1%float
  | PBool false => 0%float
  end.

(** [signToken] and the cookie both auth routes set. *)
Definition signToken (userId : string) : string := jwt_sign userId.

(** [requireAuth]: the user id the [sid] cookie stands for, or the 401. *)
Definition requireAuth (sid : option string) : UserResponse + string :=
  match sid with
  | None => inl (user_error 401 "Unauthorized")
  | Some token =>
      if String.eqb token "" then inl (user_error 401 "Unauthorized")
      else
        match jwt_verify token with
        | Some sub => inr sub
        | None => inl (user_error 401 "Unauthorized")
        end
  end.

(** [prisma.user.findFirst({ where: { OR: [...] } })]: a row that matches,
    the first in the order the table is read. *)
Definition find_first (P : Account.t → bool)
    (accounts : gmap string Account.t) : option Account.t :=
  head (filter (λ u, P u = true) (snd <$> map_to_list accounts)).

Definition email_or_username (email username : string) (u : Account.t)
    : bool :=
  String.eqb (Profile.email (Account.profile u)) email
  || String.eqb (User.username (Profile.user (Account.profile u))) username.

(** *** POST /api/auth/register *)

Record RegisterBody := mkRegisterBody {
  r_username : jsprim;
  r_email : jsprim;
  r_password : jsprim
}.

(** The row [prisma.user.create] writes; the columns the route does not
    give are null. *)
Definition new_account (new_id username email passwordHash : string)
    : Account.t :=
  {| Account.profile :=
       {| Profile.user :=
            {| User.id := new_id;
               User.username := username;
               User.role := "Player";
               User.sport := None |};
          Profile.email := email;
          Profile.name := None;
          Profile.dob := None;
          Profile.gender := None;
          Profile.mobile := None;
          Profile.profilePic := None;
          Profile.height := None;
          Profile.weight := None;
          Profile.bloodgroup := None;
          Profile.address := None |};
     Account.passwordHash := passwordHash |}.

(** A number or a boolean for [email] makes [email.toLowerCase()] throw and
    for [username] the query; for [password] the hashing throws, once the
    query has found nobody; an id already taken makes the insertion throw. *)
Definition post_auth_register (salt new_id : string) (b : RegisterBody)
    (accounts : gmap string Account.t)
    : UserResponse * gmap string Account.t :=
  if negb (prim_truthy (r_username b)) || negb (prim_truthy (r_email b))
     || negb (prim_truthy (r_password b))
  then (user_error 400 "Missing required fields", accounts)
  else
    match r_email b, r_username b with
    | PString email, PString username =>
        match find_first (email_or_username (toLowerCase email) username)
                accounts with
        | Some _ => (user_error 409 "User already exists", accounts)
        | None =>
            match r_password b, accounts !! new_id with
            | PString password, None =>
                let user :=
                  new_account new_id username (toLowerCase email)
                    (bcrypt_hash salt password) in
                (mkUserResponse 201 (SetSid (signToken new_id))
                   (PublicUser (toPublicUser user)),
                 <[new_id := user]> accounts)
            | _, _ => (user_error 500 "Server error", accounts)
            end
        end
    | _, _ => (user_error 500 "Server error", accounts)
    end.

(** *** POST /api/auth/login *)

Record LoginBody := mkLoginBody {
  l_identifier : jsprim;
  l_password : jsprim
}.

Definition post_auth_login (b : LoginBody) (accounts : gmap string Account.t)
    : UserResponse :=
  if negb (prim_truthy (l_identifier b)) || negb (prim_truthy (l_password b))
  then user_error 400 "Missing credentials"
  else
    let idLower := toLowerCase (trim (String_ (l_identifier b))) in
    match find_first (email_or_username idLower idLower) accounts with
    | None => user_error 401 "Invalid credentials"
    | Some user =>
        match l_password b with
        | PString password =>
            if bcrypt_compare password (Account.passwordHash user)
            then mkUserResponse 200
                   (SetSid (signToken
                      (User.id (Profile.user (Account.profile user)))))
                   (PublicUser (toPublicUser user))
            else user_error 401 "Invalid credentials"
        | _ => user_error 500 "Server error"
        end
    end.

(** *** POST /api/auth/logout *)

Definition post_auth_logout : UserResponse :=
  mkUserResponse 200 ClearSid OkTrue.

(** *** GET /api/me *)

Definition get_me (userId : string) (accounts : gmap string Account.t)
    : UserResponse :=
  match accounts !! userId with
  | None => user_error 404 "Not found"
  | Some user => mkUserResponse 200 NoCookie (PublicUser (toPublicUser user))
  end.

(** *** PATCH /api/me *)

Record ProfileBody := mkProfileBody {
  p_name : jsprim;
  p_dob : jsprim;
  p_gender : jsprim;
  p_mobile : jsprim;
  p_role : jsprim;
  p_sport : jsprim;
  p_profilePic : jsprim;
  p_height : jsprim;
  p_weight : jsprim;
  p_bloodgroup : jsprim;
  p_address : jsprim
}.

(** [if (v !== undefined) data.x = String(v)] on a text column. *)
Definition patch_text (v : jsprim) (old : option string) : option string :=
  match v with
  | PUndefined => old
  | _ => Some (String_ v)
  end.

(** [if (dob !== undefined) data.dob = dob ? new Date(String(dob)) : null];
    an Invalid Date makes the store throw. *)
Definition patch_dob (v : jsprim) (old : option Z) : option (option Z) :=
  match v with
  | PUndefined => Some old
  | _ =>
      if prim_truthy v
      then match parse_date (String_ v) with
           | Some ms => Some (Some ms)
           | None => None
           end
      else Some None
  end.

(** [if (v !== undefined) data.x = v === null ? null : Number(v)]. *)
Definition patch_number (v : jsprim) (old : option float)
    : option (option float) :=
  match v with
  | PUndefined => Some old
  | PNull => Some None
  | _ => store_number (Number_ v)
  end.

(** The [data] of the profile update applied to the stored row. *)
Definition patch_profile (b : ProfileBody) (u : Account.t)
    : option Account.t :=
  let p := Account.profile u in
  dob ← patch_dob (p_dob b) (Profile.dob p) ;
  height ← patch_number (p_height b) (Profile.height p) ;
  weight ← patch_number (p_weight b) (Profile.weight p) ;
  Some
    {| Account.profile :=
         {| Profile.user :=
              {| User.id := User.id (Profile.user p);
                 User.username := User.username (Profile.user p);
                 User.role :=
                   match p_role b with
                   | PUndefined => User.role (Profile.user p)
                   | v => String_ v
                   end;
                 User.sport :=
                   patch_text (p_sport b) (User.sport (Profile.user p)) |};
            Profile.email := Profile.email p;
            Profile.name := patch_text (p_name b) (Profile.name p);
            Profile.dob := dob;
            Profile.gender := patch_text (p_gender b) (Profile.gender p);
            Profile.mobile := patch_text (p_mobile b) (Profile.mobile p);
            Profile.profilePic :=
              patch_text (p_profilePic b) (Profile.profilePic p);
            Profile.height := height;
            Profile.weight := weight;
            Profile.bloodgroup :=
              patch_text (p_bloodgroup b) (Profile.bloodgroup p);
            Profile.address := patch_text (p_address b) (Profile.address p) |};
       Account.passwordHash := Account.passwordHash u |}.

Definition patch_me (userId : string) (b : ProfileBody)
    (accounts : gmap string Account.t)
    : UserResponse * gmap string Account.t :=
  if prim_truthy (p_mobile b) && negb (ten_digits (String_ (p_mobile b)))
  then (user_error 400 "Mobile must be 10 digits", accounts)
  else
    match accounts !! userId ≫= patch_profile b with
    | Some updated =>
        (mkUserResponse 200 NoCookie (PublicUser (toPublicUser updated)),
         <[userId := updated]> accounts)
    | None => (user_error 500 "Server error", accounts)
    end.

End Accounts.

(** No two accounts share an email or a username. *)
Definition distinct_logins (accounts : gmap string Account.t) : Prop :=
  ∀ k1 k2 u1 u2,
    accounts !! k1 = Some u1 →
    accounts !! k2 = Some u2 →
    Profile.email (Account.profile u1) = Profile.email (Account.profile u2)
    ∨ User.username (Profile.user (Account.profile u1))
      = User.username (Profile.user (Account.profile u2)) →
    k1 = k2.

(** The columns of an account a profile update leaves alone. *)
Definition same_identity (u u' : Account.t) : Prop :=
  User.id (Profile.user (Account.profile u'))
  = User.id (Profile.user (Account.profile u))
  ∧ User.username (Profile.user (Account.profile u'))
    = User.username (Profile.user (Account.profile u))
  ∧ Profile.email (Account.profile u') = Profile.email (Account.profile u)
  ∧ Account.passwordHash u' = Account.passwordHash u.

(** A profile update that only names a role and a sport. *)
Definition role_and_sport (role sport : string) : ProfileBody :=
  {| p_name := PUndefined;
     p_dob := PUndefined;
     p_gender := PUndefined;
     p_mobile := PUndefined;
     p_role := PString role;
     p_sport := PString sport;
     p_profilePic := PUndefined;
     p_height := PUndefined;
     p_weight := PUndefined;
     p_bloodgroup := PUndefined;
     p_address := PUndefined |}.

(** ** Sample runtime for the account routes *)

Definition lower_ascii (c : ascii) : ascii :=
  let n := nat_of_ascii c in
  if (65 <=? n)%nat && (n <=? 90)%nat then ascii_of_nat (n + 32) else c.

Fixpoint lower_ex (s : string) : string :=
  match s with
  | EmptyString => EmptyString
  | String c s => String (lower_ascii c) (lower_ex s)
  end.

Fixpoint trim_start_ex (s : string) : string :=
  match s with
  | String " " s => trim_start_ex s
  | _ => s
  end.

Definition trim_ex (s : string) : string :=
  String.rev (trim_start_ex (String.rev (trim_start_ex s))).

Definition hash_ex (salt password : string) : string :=
  "$" +:+ salt +:+ "$" +:+ password.

Definition compare_ex (password hash : string) : bool :=
  let n := String.length password in
  String.eqb
    (String.substring (String.length hash - S n) (S n) hash)
    ("$" +:+ password).

Definition sign_ex (userId : string) : string := "jwt." +:+ userId.

Definition verify_ex (token : string) : option string :=
  if String.prefix "jwt." token
  then Some (String.substring 4 (String.length token - 4) token)
  else None.

Definition register_ex : RegisterBody :=
  {| r_username := PString "Alice";
     r_email := PString "Alice@Example.org";
     r_password := PString "s3cret" |}.

(** The account table after pat has registered as "Alice". *)
Definition accounts_ex : gmap string Account.t :=
  (post_auth_register lower_ex hash_ex sign_ex "salt" "P" register_ex ∅).2.

(** Ports 3001 and 3002 are taken. *)
Definition listen_ex (port : Z) : ListenResult :=
  if (port =? 3001)%Z || (port =? 3002)%Z then ErrorEvent "EADDRINUSE"
  else Listens.

Definition number_text_ex (x : float) : string :=
  if PrimFloat.eqb x 0%float then "0" else "NaN".

Definition number_ex (s : string) : float :=
  if String.eqb s "" then 0%float else PrimFloat.nan.

Definition store_number_ex (x : float) : option (option float) :=
  if PrimFloat.is_nan x then None else Some (Some x).

(** The account "Alice" registers with. *)
Definition alice_ex : Account.t :=
  new_account "P" "Alice" "alice@example.org" (hash_ex "salt" "s3cret").

Definition mobile_ex : ProfileBody :=
  {| p_name := PString "Alice A.";
     p_dob := PNull;
     p_gender := PUndefined;
     p_mobile := PString "9876543210";
     p_role := PUndefined;
     p_sport := PUndefined;
     p_profilePic := PUndefined;
     p_height := PNumber 170%float;
     p_weight := PNull;
     p_bloodgroup := PUndefined;
     p_address := PUndefined |}.



(** A second registration, into the table that holds "Alice". *)
Definition register_bob_ex : RegisterBody :=
  {| r_username := PString "bob";
     r_email := PString "Bob@Example.org";
     r_password := PString "hunter2" |}.

Definition accounts2_ex : gmap string Account.t :=
  (post_auth_register lower_ex hash_ex sign_ex "pepper" "B" register_bob_ex
     accounts_ex).2.

Definition bob_ex : Account.t :=
  new_account "B" "bob" "bob@example.org" (hash_ex "pepper" "hunter2").

(** ** Notions the properties of the lifecycle are stated with *)

(** The id a request is about: the id the store hands out for a Create, the
    [:id] of the route otherwise. *)
Definition request_id (req : Request) : string :=
  match req with
  | Create new_id _ _ => new_id
  | Update _ id _ => id
  | Delete _ id => id
  | Verify _ id _ => id
  end.

(** A field a route takes for missing: absent, null or the empty string. *)
Definition blank (v : jsval) : Prop :=
  v = JUndefined ∨ v = JNull ∨ v = JString "".

(** Every record sits under its own id. *)
Definition well_keyed (db : gmap string Achievement.t) : Prop :=
  map_Forall (λ k a, Achievement.id a = k) db.

(** The verification stamp of a record: all three columns, or none. *)
Definition stamped (a : Achievement.t) : Prop :=
  is_Some (Achievement.verifiedById a)
  ∧ is_Some (Achievement.verifiedByName a)
  ∧ is_Some (Achievement.verifiedAt a).

Definition unstamped (a : Achievement.t) : Prop :=
  Achievement.verifiedById a = None
  ∧ Achievement.verifiedByName a = None
  ∧ Achievement.verifiedAt a = None.

(** The columns no route writes after the record is created. *)
Definition same_origin (a a' : Achievement.t) : Prop :=
  Achievement.id a' = Achievement.id a
  ∧ Achievement.ownerId a' = Achievement.ownerId a
  ∧ Achievement.proof a' = Achievement.proof a
  ∧ Achievement.createdAt a' = Achievement.createdAt a.

(** The columns only a verification writes. *)
Definition same_verdict (a a' : Achievement.t) : Prop :=
  Achievement.status a' = Achievement.status a
  ∧ Achievement.decisionReason a' = Achievement.decisionReason a
  ∧ Achievement.verifiedById a' = Achievement.verifiedById a
  ∧ Achievement.verifiedByName a' = Achievement.verifiedByName a
  ∧ Achievement.verifiedAt a' = Achievement.verifiedAt a.

Definition is_verify (req : Request) : bool :=
  match req with
  | Verify _ _ _ => true
  | _ => false
  end.

(** The rate as a function of the two counts it is computed from. *)
Definition rate_of_counts (approvedCount totalCount : nat) : option float :=
  if (0 <? Z.of_nat totalCount)%Z
  then Some (Math_round
               (PrimFloat.mul
                  (PrimFloat.div
                     (PrimFloat.of_uint63 (Uint63.of_Z (Z.of_nat approvedCount)))
                     (PrimFloat.of_uint63 (Uint63.of_Z (Z.of_nat totalCount))))
                  100%float))
  else None.

(** A whole number as a JavaScript number. *)
Definition number_of_Z (z : Z) : float :=
  PrimFloat.of_uint63 (Uint63.of_Z z).

(** The rate agrees with the stated one for [approvedCount] out of
    [totalCount]; checked over ranges of counts by evaluation. *)
Definition rate_agrees (approvedCount totalCount : nat) : bool :=
  match rate_of_counts approvedCount totalCount with
  | Some x =>
      PrimFloat.Leibniz.eqb x
        (number_of_Z
           (stated_rate (Z.of_nat approvedCount) (Z.of_nat totalCount)))
  | None => false
  end.

(** The rate is the stated one or the whole number just below it. *)
Definition rate_near (approvedCount totalCount : nat) : bool :=
  match rate_of_counts approvedCount totalCount with
  | Some x =>
      let stated :=
        stated_rate (Z.of_nat approvedCount) (Z.of_nat totalCount) in
      PrimFloat.Leibniz.eqb x (number_of_Z stated)
      || PrimFloat.Leibniz.eqb x (number_of_Z (stated - 1))
  | None => false
  end.

(** [check approvedCount totalCount] for every [1 ≤ totalCount ≤ n] and
    every [approvedCount ≤ totalCount]. *)
Definition for_all_counts (check : nat → nat → bool) (n : nat) : bool :=
  forallb (λ t, forallb (λ a, check a t) (seq 0 (S t))) (seq 1 n).

Lemma truthy_column_true v :
  truthy_column v = true ↔ ∃ s, v = Some s ∧ s ≠ "".
Proof.
  destruct v as [s|]; simpl.
  - rewrite negb_true_iff, String.eqb_neq. split.
    + intros Hs. by exists s.
    + by intros (s' & [= <-] & Hs).
  - split; [done | by intros (s & ? & _)].
Qed.

Lemma not_a_coach_false caller :
  not_a_coach caller = false ↔ ∃ s, coach_with_sport caller s.
Proof.
  unfold coach_with_sport. destruct caller as [c|]; simpl.
  - rewrite orb_false_iff, !negb_false_iff, String.eqb_eq, truthy_column_true.
    split.
    + intros (Hr & s & Hs & Hne). exists s, c. done.
    + intros (s & c' & [= <-] & Hr & Hs & Hne). eauto.
  - split; [done | by intros (s & c & ? & _)].
Qed.

Lemma not_a_coach_true caller :
  not_a_coach caller = true ↔
  caller = None
  ∨ ∃ c, caller = Some c
         ∧ (User.role c ≠ "Coach" ∨ User.sport c = None
            ∨ User.sport c = Some "").
Proof.
  destruct caller as [c|]; simpl; [|naive_solver].
  rewrite orb_true_iff, !negb_true_iff, String.eqb_neq. split.
  - intros [Hr | Hs]; right; exists c; split; try done; [by left |].
    right. destruct (User.sport c) as [s|]; [|by left]. right.
    simpl in Hs. apply negb_false_iff, String.eqb_eq in Hs. by subst.
  - intros [? | (c' & [= <-] & [Hr | [Hs | Hs]])]; try done;
      [by left | right; by rewrite Hs ..].
Qed.

(** ** Verification is scoped to the coach's sport *)

Section Verify.
Variables (now : Z) (users : gmap string User.t) (coachId id : string).
Variables (b : VerifyBody) (db : gmap string Achievement.t).

Lemma verify_not_a_coach :
  not_a_coach (users !! coachId) = true →
  patch_achievement_verify now users coachId id b db
  = (status_json 403 "Forbidden: Not a coach", db).
Proof. unfold patch_achievement_verify. by intros ->. Qed.

Lemma verify_other_sport coach achievement :
  users !! coachId = Some coach →
  not_a_coach (Some coach) = false →
  db !! id = Some achievement →
  User.sport coach ≠ Some (Achievement.sport achievement) →
  patch_achievement_verify now users coachId id b db
  = (status_json 403
       "Forbidden: Cannot verify achievement for a different sport", db).
Proof.
  intros Hc Hg Ha Hne. unfold patch_achievement_verify.
  rewrite Hc, Hg, Ha. rewrite bool_decide_eq_false_2; [done | congruence].
Qed.

Lemma verify_missing coach :
  users !! coachId = Some coach →
  not_a_coach (Some coach) = false →
  db !! id = None →
  patch_achievement_verify now users coachId id b db
  = (status_json 404 "Achievement not found", db).
Proof.
  intros Hc Hg Ha. unfold patch_achievement_verify. by rewrite Hc, Hg, Ha.
Qed.

Lemma verify_same_sport coach achievement :
  users !! coachId = Some coach →
  not_a_coach (Some coach) = false →
  db !! id = Some achievement →
  User.sport coach = Some (Achievement.sport achievement) →
  patch_achievement_verify now users coachId id b db
  = match verify_record now coach b achievement with
    | Some updatedAchievement =>
        (json (AchievementBody updatedAchievement),
         <[id := updatedAchievement]> db)
    | None => (server_error, db)
    end.
Proof.
  intros Hc Hg Ha He. unfold patch_achievement_verify.
  rewrite Hc, Hg, Ha. by rewrite bool_decide_eq_true_2.
Qed.

(** C1.  Whoever calls Verify on an existing achievement: when the caller is
    unknown, is not a Coach, has no sport set (null or the empty string), or
    has a sport other than the achievement's, the answer is a 403 of class
    AuthorizationError and the table is the one before the call. *)
Theorem verify_forbidden_leaves_record caller achievement :
  users !! coachId = caller →
  db !! id = Some achievement →
  (caller = None
   ∨ ∃ c, caller = Some c
          ∧ (User.role c ≠ "Coach" ∨ User.sport c = None
             ∨ User.sport c = Some ""
             ∨ User.sport c ≠ Some (Achievement.sport achievement))) →
  ∃ msg,
    patch_achievement_verify now users coachId id b db
    = (status_json 403 msg, db)
    ∧ error_class (status_json 403 msg) = Some AuthorizationError
    ∧ (patch_achievement_verify now users coachId id b db).2 !! id
      = Some achievement.
Proof.
  intros Hc Ha Hwho.
  destruct (not_a_coach caller) eqn:Hg.
  - exists "Forbidden: Not a coach". rewrite verify_not_a_coach by by rewrite Hc.
    done.
  - exists "Forbidden: Cannot verify achievement for a different sport".
    destruct Hwho as [-> | (c & -> & Hwhy)]; [done |].
    assert (User.sport c ≠ Some (Achievement.sport achievement)) as Hne.
    { apply not_a_coach_false in Hg as (s & c' & [= <-] & Hr & Hs & Hs').
      destruct Hwhy as [? | [? | [? | ?]]]; congruence. }
    by rewrite (verify_other_sport c achievement).
Qed.

(** C5, as the handler has it.  For an id without a record, a Coach with a
    sport gets the 404 "Achievement not found", of class NotFoundError; a
    caller who is not a Coach or has no sport gets the 403 of class
    AuthorizationError, the coach guard coming first.  The table is left as
    it was either way. *)
Theorem verify_missing_record :
  db !! id = None →
  ((∃ s, coach_with_sport (users !! coachId) s) →
   patch_achievement_verify now users coachId id b db
   = (status_json 404 "Achievement not found", db)
   ∧ error_class (status_json 404 "Achievement not found")
     = Some NotFoundError)
  ∧ (not_a_coach (users !! coachId) = true →
     patch_achievement_verify now users coachId id b db
     = (status_json 403 "Forbidden: Not a coach", db)
     ∧ error_class (status_json 403 "Forbidden: Not a coach")
       = Some AuthorizationError).
Proof.
  intros Ha. split.
  - intros Hs. split; [|done].
    pose proof Hs as (s & c & Hc & _).
    apply not_a_coach_false in Hs. rewrite Hc in Hs.
    by apply (verify_missing c).
  - intros Hg. by rewrite verify_not_a_coach.
Qed.

End Verify.

(** C5, as stated, fails: coach carol verifying the id "a9", which no record
    has, is answered 404 "Achievement not found", not a 403. *)
Lemma verify_missing_record_not_forbidden :
  (∅ : gmap string Achievement.t) !! "a9" = None
  ∧ (patch_achievement_verify 5000 users_ex "C" "a9"
       (mkVerifyBody (JString "APPROVED") JUndefined) ∅).1
    = status_json 404 "Achievement not found"
  ∧ error_class
      (patch_achievement_verify 5000 users_ex "C" "a9"
         (mkVerifyBody (JString "APPROVED") JUndefined) ∅).1
    ≠ Some AuthorizationError.
Proof. vm_compute. by repeat split. Qed.

(** ** Owner edits and deletions *)

Section Owner.
Variable parse_date : string → option Z.
Variables (now : Z) (userId id : string).
Variable db : gmap string Achievement.t.

Lemma put_not_mine b :
  not_mine userId id db →
  put_achievement parse_date now userId id b db
  = (not_found_or_unauthorized, db).
Proof.
  unfold put_achievement. intros [-> | (a & -> & Hne)]; [done |].
  apply String.eqb_neq in Hne. by rewrite Hne.
Qed.

Lemma delete_not_mine :
  not_mine userId id db →
  delete_achievement userId id db = (not_found_or_unauthorized, db).
Proof.
  unfold delete_achievement. intros [-> | (a & -> & Hne)]; [done |].
  apply String.eqb_neq in Hne. by rewrite Hne.
Qed.


Lemma delete_mine_approved a :
  db !! id = Some a →
  Achievement.ownerId a = userId →
  Achievement.status a = "APPROVED" →
  delete_achievement userId id db
  = (status_json 403 "Cannot delete an approved achievement.", db).
Proof.
  intros Ha Ho Hs. unfold delete_achievement. rewrite Ha.
  apply String.eqb_eq in Ho. rewrite Ho. simpl. by rewrite Hs.
Qed.

(** C7.  Update and Delete answer a missing record and another user's
    record with one and the same response, the 404 "Achievement not found or
    unauthorized", and leave the table as it was in both cases. *)
Theorem update_delete_hide_existence b :
  not_mine userId id db →
  put_achievement parse_date now userId id b db
  = (not_found_or_unauthorized, db)
  ∧ delete_achievement userId id db = (not_found_or_unauthorized, db)
  ∧ error_class not_found_or_unauthorized = Some NotFoundError.
Proof.
  intros H. by rewrite put_not_mine, delete_not_mine.
Qed.

(** C6.  The owner's Delete of an APPROVED achievement is answered 403
    "Cannot delete an approved achievement.", of class ConflictError; the
    table is the one before the call, so the record is still there,
    unchanged. *)
Theorem delete_approved_conflict a :
  db !! id = Some a →
  Achievement.ownerId a = userId →
  Achievement.status a = "APPROVED" →
  delete_achievement userId id db
  = (status_json 403 "Cannot delete an approved achievement.", db)
  ∧ error_class (delete_achievement userId id db).1 = Some ConflictError
  ∧ (delete_achievement userId id db).2 !! id = Some a.
Proof.
  intros Ha Ho Hs. by rewrite (delete_mine_approved a).
Qed.

Lemma update_record_keeps b a a' :
  update_record parse_date now b a = Some a' →
  Achievement.id a' = Achievement.id a
  ∧ Achievement.ownerId a' = Achievement.ownerId a
  ∧ Achievement.status a' = Achievement.status a
  ∧ Achievement.decisionReason a' = Achievement.decisionReason a
  ∧ Achievement.verifiedById a' = Achievement.verifiedById a
  ∧ Achievement.verifiedByName a' = Achievement.verifiedByName a
  ∧ Achievement.verifiedAt a' = Achievement.verifiedAt a
  ∧ Achievement.createdAt a' = Achievement.createdAt a.
Proof.
  unfold update_record. intros H. simplify_option_eq. done.
Qed.

(** What an Update leaves under the id it was sent for. *)
Lemma put_lookup b a :
  db !! id = Some a →
  ∃ a', (put_achievement parse_date now userId id b db).2 !! id = Some a'
        ∧ (a' = a ∨ update_record parse_date now b a = Some a').
Proof.
  intros Ha. unfold put_achievement. rewrite Ha.
  destruct (negb _); [by eauto |].
  destruct (update_record _ _ _ _) as [a'|] eqn:Hu; simpl; [|by eauto].
  exists a'. rewrite lookup_insert_eq. eauto.
Qed.



End Owner.


(** ** What a verification writes *)

Section VerifyWrites.
Variable parse_date : string → option Z.
Variables (now : Z) (users : gmap string User.t) (coachId id : string).
Variable db : gmap string Achievement.t.

Lemma verify_record_fields coach b a a' :
  verify_record now coach b a = Some a' →
  set_required (decision b) (Achievement.status a)
  = Some (Achievement.status a')
  ∧ Achievement.decisionReason a'
    = set_nullable
        (if decide (decision b = JString "REJECTED") then reason b else JNull)
        (Achievement.decisionReason a)
  ∧ Achievement.verifiedById a' = Some (User.id coach)
  ∧ Achievement.verifiedByName a' = Some (User.username coach)
  ∧ Achievement.verifiedAt a' = Some now.
Proof.
  unfold verify_record. intros H.
  destruct (set_required _ _) as [st|]; simplify_eq/=. done.
Qed.

(** A Coach with the achievement's sport who sends a decision string is
    never turned down. *)
Lemma verify_accepts b a d :
  coach_with_sport (users !! coachId) (Achievement.sport a) →
  db !! id = Some a →
  decision b = JString d →
  ∃ coach a',
    users !! coachId = Some coach
    ∧ verify_record now coach b a = Some a'
    ∧ patch_achievement_verify now users coachId id b db
      = (json (AchievementBody a'), <[id := a']> db).
Proof.
  intros Hs Ha Hd.
  assert (not_a_coach (users !! coachId) = false) as Hg
    by (apply not_a_coach_false; eauto).
  destruct Hs as (coach & Hc & _ & Hsp & _). rewrite Hc in Hg.
  rewrite (verify_same_sport _ _ _ _ _ _ coach a) by done.
  unfold verify_record. rewrite Hd. simpl. eauto.
Qed.

(** A 200 from Verify comes from the update of an existing record by an
    existing user. *)
Lemma verify_ok_inv b r db' :
  patch_achievement_verify now users coachId id b db = (r, db') →
  statusCode r = 200%Z →
  ∃ coach a a',
    users !! coachId = Some coach
    ∧ db !! id = Some a
    ∧ verify_record now coach b a = Some a'
    ∧ r = json (AchievementBody a')
    ∧ db' = <[id := a']> db.
Proof.
  unfold patch_achievement_verify. intros H Hok.
  destruct (not_a_coach _); [by simplify_eq/= |].
  destruct (users !! coachId) as [coach|]; [|by simplify_eq/=].
  destruct (db !! id) as [a|]; [|by simplify_eq/=].
  destruct (negb _); [by simplify_eq/= |].
  destruct (verify_record _ _ _ _) as [a'|] eqn:Hv; [|by simplify_eq/=].
  simplify_eq/=. by exists coach, a, a'.
Qed.

(** What an Update leaves in the table: every record is one that was there,
    or the edit of the one that was there. *)
Lemma put_lookup_any userId b k a1 :
  (put_achievement parse_date now userId id b db).2 !! k = Some a1 →
  db !! k = Some a1
  ∨ ∃ a0, db !! k = Some a0 ∧ update_record parse_date now b a0 = Some a1.
Proof.
  unfold put_achievement.
  destruct (db !! id) as [a|] eqn:Ha; [|by left].
  destruct (negb _); [by left |].
  destruct (update_record _ _ _ _) as [a'|] eqn:Hu; [|by left]. simpl.
  destruct (decide (id = k)) as [<- | Hne].
  - rewrite lookup_insert_eq. intros [= <-]. right. eauto.
  - rewrite lookup_insert_ne by done. by left.
Qed.

(** What a Verify answered 200 writes: the decision string as status; the
    reason sent (a string or null) when the decision is REJECTED and null
    when it is anything else; the coach's id and username and the time of
    the call as the stamp. *)
Lemma verify_ok_writes b d r db' :
  patch_achievement_verify now users coachId id b db = (r, db') →
  statusCode r = 200%Z →
  decision b = JString d →
  ∃ coach a a',
    users !! coachId = Some coach ∧ db !! id = Some a
    ∧ r = json (AchievementBody a') ∧ db' !! id = Some a'
    ∧ Achievement.status a' = d
    ∧ (d ≠ "REJECTED" → Achievement.decisionReason a' = None)
    ∧ (d = "REJECTED" → reason b ≠ JUndefined →
       Achievement.decisionReason a' = sent (reason b))
    ∧ Achievement.verifiedById a' = Some (User.id coach)
    ∧ Achievement.verifiedByName a' = Some (User.username coach)
    ∧ Achievement.verifiedAt a' = Some now.
Proof.
  intros H Hok Hd.
  destruct (verify_ok_inv _ _ _ H Hok)
    as (coach & a & a' & Hc & Ha & Hv & -> & ->).
  exists coach, a, a'.
  apply verify_record_fields in Hv as (Hst & Hr & Hi & Hn & Ht).
  rewrite Hd in Hst, Hr. simpl in Hst. injection Hst as Hst.
  rewrite lookup_insert_eq. repeat split; try done.
  - intros Hne. rewrite Hr. rewrite decide_False by congruence. done.
  - intros -> Hu. rewrite Hr. rewrite decide_True by done.
    by destruct (reason b).
Qed.

(** An owner's Update leaves the verification stamp of every record as it
    was. *)
Lemma update_keeps_stamp userId ub k a1 :
  (put_achievement parse_date now userId id ub db).2 !! k = Some a1 →
  ∃ a0, db !! k = Some a0
        ∧ Achievement.verifiedById a1 = Achievement.verifiedById a0
        ∧ Achievement.verifiedByName a1 = Achievement.verifiedByName a0
        ∧ Achievement.verifiedAt a1 = Achievement.verifiedAt a0.
Proof.
  intros Hl.
  apply put_lookup_any in Hl as [Hl | (a0 & Hl & Hu)]; [by eauto |].
  exists a0. split; [done |].
  apply update_record_keeps in Hu as (_ & _ & _ & _ & Ei & En & Et & _).
  by rewrite Ei, En, Et.
Qed.


End VerifyWrites.

(** C4 at a second rejection without a reason: carol rejects again, with
    no reason in the body, the achievement she had rejected for a "blurry
    proof".  The call is answered 200 and the stored reason is still "blurry
    proof", where [decisionReason = reason] asks for null: the [data] of
    the update holds [decisionReason: undefined], which the store skips. *)
Lemma verify_keeps_former_reason :
  statusCode
    (patch_achievement_verify 7000 users_ex "C" "a1"
       (mkVerifyBody (JString "REJECTED") JUndefined)
       {[ "a1" := rejected_ex ]}).1 = 200%Z
  ∧ Achievement.decisionReason
      <$> (patch_achievement_verify 7000 users_ex "C" "a1"
             (mkVerifyBody (JString "REJECTED") JUndefined)
             {[ "a1" := rejected_ex ]}).2 !! "a1"
    = Some (Some "blurry proof")
  ∧ Achievement.decisionReason
      <$> (patch_achievement_verify 7000 users_ex "C" "a1"
             (mkVerifyBody (JString "REJECTED") JUndefined)
             {[ "a1" := rejected_ex ]}).2 !! "a1"
    ≠ Some (stated_decisionReason "REJECTED" JUndefined).
Proof. vm_compute. by repeat split. Qed.

(** ** The decision reason along the lifecycle *)

Section Lifecycle.
Variable parse_date : string → option Z.

(** A stored reason belongs to a rejected record. *)
Lemma reason_only_if_rejected_create now new_id userId b db a :
  create_record parse_date now new_id userId b db = Some a →
  Achievement.decisionReason a = None.
Proof.
  unfold create_record. intros H.
  destruct (db !! new_id); [done |]. by simplify_option_eq.
Qed.

Lemma reason_only_if_rejected_verify now coach b a a' :
  verify_record now coach b a = Some a' →
  Achievement.decisionReason a' ≠ None →
  Achievement.status a' = "REJECTED".
Proof.
  intros Hv. apply verify_record_fields in Hv as (Hst & -> & _).
  destruct (decision b) as [| | d]; simpl in *; [done | done |].
  injection Hst as <-. case_decide as Hd; [congruence | done].
Qed.

Lemma handle_preserves now users req (db : gmap string Achievement.t) :
  map_Forall (λ _ a, Achievement.decisionReason a ≠ None →
                     Achievement.status a = "REJECTED") db →
  map_Forall (λ _ a, Achievement.decisionReason a ≠ None →
                     Achievement.status a = "REJECTED")
    (handle parse_date now users req db).2.
Proof.
  intros Hdb. destruct req as [new_id userId b | userId id b | userId id
                              | coachId id b]; simpl.
  - unfold post_achievement. destruct (_ || _); [done |].
    destruct (create_record _ _ _ _ _ _) as [a|] eqn:Hc; [|done]. simpl.
    apply map_Forall_insert_2; [|done].
    apply reason_only_if_rejected_create in Hc. congruence.
  - unfold put_achievement. destruct (db !! id) as [a|] eqn:Ha; [|done].
    destruct (negb _); [done |].
    destruct (update_record _ _ _ _) as [a'|] eqn:Hu; [|done]. simpl.
    apply map_Forall_insert_2; [|done].
    apply update_record_keeps in Hu as (_ & _ & -> & -> & _).
    by apply (Hdb id).
  - unfold delete_achievement. destruct (db !! id) as [a|]; [|done].
    destruct (negb _); [done |]. destruct (String.eqb _ _); [done |]. simpl.
    by apply map_Forall_delete.
  - unfold patch_achievement_verify. destruct (not_a_coach _); [done |].
    destruct (users !! coachId) as [coach|]; [|done].
    destruct (db !! id) as [a|]; [|done]. destruct (negb _); [done |].
    destruct (verify_record _ _ _ _) as [a'|] eqn:Hv; [|done]. simpl.
    apply map_Forall_insert_2; [|done].
    by apply (reason_only_if_rejected_verify now coach b a).
Qed.

Lemma reachable_reason_only_if_rejected db :
  reachable parse_date db →
  map_Forall (λ _ a, Achievement.decisionReason a ≠ None →
                     Achievement.status a = "REJECTED") db.
Proof.
  induction 1 as [| now users req db _ IH].
  - apply map_Forall_empty.
  - by apply handle_preserves.
Qed.

(** C3, as the handlers have it.  In every table the lifecycle reaches, a
    record with a decision reason is REJECTED; and a Verify with decision
    APPROVED by a Coach of the record's sport on a REJECTED record leaves it
    APPROVED with a null decision reason. *)
Theorem reason_implies_rejected_and_approval_clears db :
  reachable parse_date db →
  (∀ id a,
     db !! id = Some a →
     Achievement.decisionReason a ≠ None →
     Achievement.status a = "REJECTED")
  ∧ ∀ now users coachId id rsn a,
      db !! id = Some a →
      Achievement.status a = "REJECTED" →
      coach_with_sport (users !! coachId) (Achievement.sport a) →
      ∃ a',
        patch_achievement_verify now users coachId id
          (mkVerifyBody (JString "APPROVED") rsn) db
        = (json (AchievementBody a'), <[id := a']> db)
        ∧ Achievement.status a' = "APPROVED"
        ∧ Achievement.decisionReason a' = None.
Proof.
  intros Hreach. split.
  - intros id a Ha. by apply (reachable_reason_only_if_rejected db Hreach id).
  - intros now users coachId id rsn a Ha _ Hs.
    destruct (verify_accepts now users coachId id db
                (mkVerifyBody (JString "APPROVED") rsn) a "APPROVED"
                Hs Ha eq_refl)
      as (coach & a' & _ & Hv & Hp).
    exists a'. split; [done |].
    apply verify_record_fields in Hv as (Hst & Hr & _).
    simpl in Hst, Hr. injection Hst as Hst. done.
Qed.

End Lifecycle.

Lemma rejected_without_reason_reachable :
  reachable parse_ex rejected_without_reason.
Proof. unfold rejected_without_reason. do 2 constructor. constructor. Qed.

(** C3, as stated, fails: pat creates her achievement and carol rejects it
    without giving a reason.  The table so reached holds a REJECTED record
    whose decision reason is null. *)
Lemma rejected_with_null_reason :
  reachable parse_ex rejected_without_reason
  ∧ ∃ a, rejected_without_reason !! "a1" = Some a
         ∧ Achievement.status a = "REJECTED"
         ∧ Achievement.decisionReason a = None
         ∧ ¬ (Achievement.status a = "REJECTED"
              ↔ Achievement.decisionReason a ≠ None).
Proof.
  split; [apply rejected_without_reason_reachable |].
  exists (state_champion "REJECTED" None (Some carol) (Some 2000%Z)).
  split; [by vm_compute |]. repeat split; [done .. |].
  simpl. intros [H _]. by apply H.
Qed.

(** ** The coach's queue of pending achievements *)

Global Instance newer_first_total : Total newer_first.
Proof. intros a b. unfold newer_first. lia. Qed.

Global Instance newer_first_trans : Transitive newer_first.
Proof. intros a b c. unfold newer_first. lia. Qed.

Section Pending.
Variables (users : gmap string User.t) (db : gmap string Achievement.t).

Lemma find_pending_rows sport :
  row <$> find_pending users sport db
  = merge_sort newer_first
      (filter (pending_in sport) (snd <$> map_to_list db)).
Proof.
  unfold find_pending. rewrite <- list_fmap_compose.
  rewrite <- (list_fmap_id (merge_sort _ _)) at 2.
  by apply list_fmap_ext.
Qed.

Lemma find_pending_elem sport a :
  a ∈ row <$> find_pending users sport db
  ↔ (∃ id, db !! id = Some a) ∧ pending_in sport a.
Proof.
  rewrite find_pending_rows, merge_sort_Permutation.
  rewrite list_elem_of_filter, list_elem_of_fmap. split.
  - intros [Hp ([id a'] & -> & Hin)]. apply elem_of_map_to_list in Hin.
    split; [by exists id | done].
  - intros [[id Hid] Hp]. split; [done |].
    exists (id, a). split; [done |]. by apply elem_of_map_to_list.
Qed.

Lemma find_pending_owner sport :
  Forall (λ r, owner r
               = User.username <$> users !! Achievement.ownerId (row r))
    (find_pending users sport db).
Proof. unfold find_pending. apply Forall_fmap. by apply Forall_true. Qed.

Lemma pending_as_coach userId s :
  coach_with_sport (users !! userId) s →
  get_achievements_pending users userId db
  = json (PendingBody (find_pending users s db)).
Proof.
  intros Hs. unfold get_achievements_pending.
  assert (not_a_coach (users !! userId) = false) as ->
    by (apply not_a_coach_false; eauto).
  destruct Hs as (c & -> & _ & Hsp & _). simpl. by rewrite Hsp.
Qed.

(** C8.  A Coach whose sport is set is answered with rows that are, up to
    order, the records of the table with status PENDING and the coach's
    sport, and nothing else; every row is at least as new as the rows after
    it; every row carries the username of the record's owner.  Any other
    caller is answered 403 "Forbidden", of class AuthorizationError. *)
Theorem pending_for_coach userId :
  (∀ s, coach_with_sport (users !! userId) s →
     ∃ rows,
       get_achievements_pending users userId db = json (PendingBody rows)
       ∧ row <$> rows
         ≡ₚ filter (pending_in s) (snd <$> map_to_list db)
       ∧ (∀ a, a ∈ row <$> rows
               ↔ (∃ id, db !! id = Some a)
                 ∧ Achievement.status a = "PENDING"
                 ∧ Achievement.sport a = s)
       ∧ StronglySorted newer_first (row <$> rows)
       ∧ Forall (λ r, owner r
                      = User.username
                          <$> users !! Achievement.ownerId (row r)) rows)
  ∧ ((¬ ∃ s, coach_with_sport (users !! userId) s) →
     get_achievements_pending users userId db = status_json 403 "Forbidden"
     ∧ error_class (get_achievements_pending users userId db)
       = Some AuthorizationError).
Proof.
  split.
  - intros s Hs. exists (find_pending users s db).
    split; [by apply pending_as_coach |].
    split; [by rewrite find_pending_rows, merge_sort_Permutation |].
    split; [apply find_pending_elem |].
    split; [|apply find_pending_owner].
    rewrite find_pending_rows. apply StronglySorted_merge_sort; apply _.
  - intros Hno. unfold get_achievements_pending.
    destruct (not_a_coach (users !! userId)) eqn:Hg; [done |].
    apply not_a_coach_false in Hg. by destruct Hno.
Qed.

End Pending.

(** ** The attendance rate of the coach report *)

(** The rate is null exactly when the window holds no request. *)
Lemma attendance_rate_null scheduleRequests30d :
  attendance_rate scheduleRequests30d = None ↔ scheduleRequests30d = [].
Proof.
  unfold attendance_rate. destruct scheduleRequests30d as [|r l]; [done |].
  by simpl.
Qed.

Lemma reports_coach_rate thirtyDaysAgo users schedules requests coachId coach :
  users !! coachId = Some coach →
  not_a_coach (Some coach) = false →
  get_reports_coach thirtyDaysAgo users schedules requests coachId
  = json (KpisBody (mkKpis (attendance_rate
       (filter (under_coach_since schedules (User.id coach) thirtyDaysAgo)
               (snd <$> map_to_list requests))))).
Proof. intros Hc Hg. unfold get_reports_coach. by rewrite Hc, Hg. Qed.

(** For a Coach with a sport the report's rate is null exactly when no
    request under the coach's schedules was created since the cutoff. *)
Lemma reports_coach_null_iff thirtyDaysAgo users schedules requests coachId
    coach :
  users !! coachId = Some coach →
  not_a_coach (Some coach) = false →
  ∃ rate,
    get_reports_coach thirtyDaysAgo users schedules requests coachId
    = json (KpisBody (mkKpis rate))
    ∧ (rate = None
       ↔ filter (under_coach_since schedules (User.id coach) thirtyDaysAgo)
                (snd <$> map_to_list requests) = []).
Proof.
  intros Hc Hg. eexists. split.
  - by apply reports_coach_rate.
  - apply attendance_rate_null.
Qed.

(** C9 at 23 approved requests out of 40 in the window of coach carol: the
    report answers 57, where round(100 * 23 / 40) = round(57.5) is 58.  In
    binary64 the quotient 23/40 times 100 is 57.49999999999999, below the
    tie. *)
Theorem attendance_rate_23_of_40 :
  length (filter (under_coach_since schedules_ex "C" 0)
                 (snd <$> map_to_list (requests_ex 23 40))) = 40
  ∧ length (filter approved
              (filter (under_coach_since schedules_ex "C" 0)
                      (snd <$> map_to_list (requests_ex 23 40)))) = 23
  ∧ get_reports_coach 0 users_ex schedules_ex (requests_ex 23 40) "C"
    = json (KpisBody (mkKpis (Some 57%float)))
  ∧ stated_rate 23 40 = 58%Z
  ∧ PrimFloat.mul (PrimFloat.div 23%float 40%float) 100%float
    = 0x1.cbfffffffffffp+5%float
  ∧ Some 57%float
    ≠ Some (PrimFloat.of_uint63 (Uint63.of_Z (stated_rate 23 40))).
Proof.
  repeat split; try (vm_compute; reflexivity).
  vm_compute. by intros [= H].
Qed.

(** ** The scenarios of section 8, through the theorems above *)

Lemma carol_coaches_cricket : coach_with_sport (users_ex !! "C") "cricket".
Proof. exists carol. by repeat split. Defined.

(** Scenario C: the football coach is refused on the cricket achievement. *)
Lemma verify_forbidden_leaves_record_witness :
  ∃ msg,
    patch_achievement_verify 7000 users_ex "F" "a1"
      (mkVerifyBody (JString "APPROVED") JUndefined) {[ "a1" := pending_ex ]}
    = (status_json 403 msg, {[ "a1" := pending_ex ]})
    ∧ error_class (status_json 403 msg) = Some AuthorizationError
    ∧ (patch_achievement_verify 7000 users_ex "F" "a1"
         (mkVerifyBody (JString "APPROVED") JUndefined)
         {[ "a1" := pending_ex ]}).2 !! "a1"
      = Some pending_ex.
Proof.
  apply (verify_forbidden_leaves_record 7000 users_ex "F" "a1"
           (mkVerifyBody (JString "APPROVED") JUndefined)
           {[ "a1" := pending_ex ]} (Some frank) pending_ex).
  - vm_compute; reflexivity.
  - vm_compute; reflexivity.
  - right. exists frank. split; [reflexivity |]. right. right. right.
    vm_compute. discriminate.
Defined.

Lemma verify_missing_record_witness :
  patch_achievement_verify 7000 users_ex "C" "a9"
    (mkVerifyBody (JString "APPROVED") JUndefined) ∅
  = (status_json 404 "Achievement not found", ∅)
  ∧ patch_achievement_verify 7000 users_ex "P" "a9"
      (mkVerifyBody (JString "APPROVED") JUndefined) ∅
    = (status_json 403 "Forbidden: Not a coach", ∅).
Proof.
  split.
  - apply (verify_missing_record 7000 users_ex "C" "a9"
             (mkVerifyBody (JString "APPROVED") JUndefined) ∅).
    + vm_compute; reflexivity.
    + exists "cricket". apply carol_coaches_cricket.
  - apply (verify_missing_record 7000 users_ex "P" "a9"
             (mkVerifyBody (JString "APPROVED") JUndefined) ∅).
    + vm_compute; reflexivity.
    + vm_compute; reflexivity.
Defined.

(** Quinn asks for pat's achievement and for one that does not exist. *)
Lemma update_delete_hide_existence_witness :
  put_achievement parse_ex 7000 "Q" "a1" retitle_ex {[ "a1" := pending_ex ]}
  = (not_found_or_unauthorized, {[ "a1" := pending_ex ]})
  ∧ put_achievement parse_ex 7000 "Q" "a9" retitle_ex {[ "a1" := pending_ex ]}
    = (not_found_or_unauthorized, {[ "a1" := pending_ex ]})
  ∧ delete_achievement "Q" "a1" {[ "a1" := pending_ex ]}
    = (not_found_or_unauthorized, {[ "a1" := pending_ex ]})
  ∧ delete_achievement "Q" "a9" {[ "a1" := pending_ex ]}
    = (not_found_or_unauthorized, {[ "a1" := pending_ex ]}).
Proof.
  assert (not_mine "Q" "a1" {[ "a1" := pending_ex ]}) as Hother.
  { right. exists pending_ex. split; [vm_compute; reflexivity |].
    vm_compute. discriminate. }
  assert (not_mine "Q" "a9" {[ "a1" := pending_ex ]}) as Hnone.
  { left. vm_compute; reflexivity. }
  pose proof (update_delete_hide_existence parse_ex 7000 "Q" "a1"
                {[ "a1" := pending_ex ]} retitle_ex Hother) as (H1 & H2 & _).
  pose proof (update_delete_hide_existence parse_ex 7000 "Q" "a9"
                {[ "a1" := pending_ex ]} retitle_ex Hnone) as (H3 & H4 & _).
  exact (conj H1 (conj H3 (conj H2 H4))).
Defined.

(** Scenario D: pat deletes her own APPROVED achievement. *)
Lemma delete_approved_conflict_witness :
  delete_achievement "P" "a1" {[ "a1" := approved_ex ]}
  = (status_json 403 "Cannot delete an approved achievement.",
     {[ "a1" := approved_ex ]})
  ∧ error_class (delete_achievement "P" "a1" {[ "a1" := approved_ex ]}).1
    = Some ConflictError
  ∧ (delete_achievement "P" "a1" {[ "a1" := approved_ex ]}).2 !! "a1"
    = Some approved_ex.
Proof.
  apply (delete_approved_conflict "P" "a1" {[ "a1" := approved_ex ]}
           approved_ex).
  - vm_compute; reflexivity.
  - reflexivity.
  - reflexivity.
Defined.


(** Scenario B: carol approves the cricket achievement. *)
Example verify_approves_pending :
  ∃ a',
    (patch_achievement_verify 7000 users_ex "C" "a1"
       (mkVerifyBody (JString "APPROVED") JUndefined)
       {[ "a1" := pending_ex ]}).2 !! "a1" = Some a'
    ∧ Achievement.status a' = "APPROVED"
    ∧ Achievement.decisionReason a' = None
    ∧ Achievement.verifiedById a' = Some "C"
    ∧ Achievement.verifiedAt a' = Some 7000%Z.
Proof.
  eexists. split; [vm_compute; reflexivity |]. by repeat split.
Qed.


Lemma reason_implies_rejected_and_approval_clears_witness :
  rejected_with_reason !! "a1" = Some rejected_ex
  ∧ Achievement.decisionReason rejected_ex = Some "blurry proof"
  ∧ Achievement.status rejected_ex = "REJECTED"
  ∧ ∃ a',
      patch_achievement_verify 7000 users_ex "C" "a1"
        (mkVerifyBody (JString "APPROVED") JUndefined) rejected_with_reason
      = (json (AchievementBody a'), <["a1" := a']> rejected_with_reason)
      ∧ Achievement.status a' = "APPROVED"
      ∧ Achievement.decisionReason a' = None.
Proof.
  destruct (reason_implies_rejected_and_approval_clears parse_ex
              rejected_with_reason) as [Hinv Hclear].
  - unfold rejected_with_reason. do 2 constructor. constructor.
  - split; [vm_compute; reflexivity |]. split; [reflexivity |]. split.
    + apply (Hinv "a1" rejected_ex); [vm_compute; reflexivity | discriminate].
    + apply (Hclear 7000%Z users_ex "C" "a1" JUndefined rejected_ex).
      * vm_compute; reflexivity.
      * reflexivity.
      * apply carol_coaches_cricket.
Defined.

(** Carol's queue holds both cricket achievements; pat, a player, has none. *)
Lemma pending_for_coach_witness :
  (∃ rows,
     get_achievements_pending users_ex "C" queue_ex = json (PendingBody rows)
     ∧ row <$> rows
       ≡ₚ filter (pending_in "cricket") (snd <$> map_to_list queue_ex)
     ∧ StronglySorted newer_first (row <$> rows))
  ∧ get_achievements_pending users_ex "P" queue_ex
    = status_json 403 "Forbidden".
Proof.
  split.
  - destruct (pending_for_coach users_ex queue_ex "C") as [Hrows _].
    destruct (Hrows "cricket" carol_coaches_cricket)
      as (rows & Hget & Hperm & _ & Hsorted & _).
    exists rows. exact (conj Hget (conj Hperm Hsorted)).
  - destruct (pending_for_coach users_ex queue_ex "P") as [_ Hno].
    apply Hno. intros (s & c & Hc & Hr & _).
    vm_compute in Hc. injection Hc as <-. vm_compute in Hr. discriminate.
Defined.

(** Scenario A: pat's new achievement is PENDING and hers. *)
Example create_is_pending :
  ∃ a,
    post_achievement parse_ex 1000 "a1" "P" create_ex ∅
    = (mkResponse 201 (AchievementBody a), {[ "a1" := a ]})
    ∧ Achievement.status a = "PENDING"
    ∧ Achievement.ownerId a = "P".
Proof. exists pending_ex. split; [vm_compute; reflexivity | done]. Qed.

(** Scenario E: no request in the window, no rate. *)
Example no_request_no_rate :
  get_reports_coach 6000 users_ex schedules_ex (requests_ex 23 40) "C"
  = json (KpisBody (mkKpis None)).
Proof. vm_compute; reflexivity. Qed.

(** One request in eight approved: 12.5 is a tie and goes up to 13. *)
Example attendance_rate_1_of_8 :
  get_reports_coach 0 users_ex schedules_ex (requests_ex 1 8) "C"
  = json (KpisBody (mkKpis (Some 13%float)))
  ∧ stated_rate 1 8 = 13%Z.
Proof. split; vm_compute; reflexivity. Qed.

(** ** More on the lifecycle: creation *)

Lemma truthy_true v : truthy v = true ↔ ∃ s, v = JString s ∧ s ≠ "".
Proof.
  destruct v as [| | s]; simpl.
  - split; [done | by intros (s & ? & _)].
  - split; [done | by intros (s & ? & _)].
  - rewrite negb_true_iff, String.eqb_neq. split.
    + intros Hs. by exists s.
    + by intros (s' & [= <-] & Hs).
Qed.

Section Creation.
Variable parse_date : string → option Z.
Variables (now : Z) (new_id userId : string) (b : CreateBody).
Variable db : gmap string Achievement.t.

Lemma post_achievement_cases :
  (post_achievement parse_date now new_id userId b db
   = (status_json 400 "Missing required fields", db)
   ∧ (truthy (c_title b) && truthy (c_date b) && truthy (c_sport b)
      && truthy (c_venue b) = false))
  ∨ (post_achievement parse_date now new_id userId b db = (server_error, db)
     ∧ create_record parse_date now new_id userId b db = None)
  ∨ ∃ a,
      post_achievement parse_date now new_id userId b db
      = (mkResponse 201 (AchievementBody a), <[new_id := a]> db)
      ∧ create_record parse_date now new_id userId b db = Some a
      ∧ (truthy (c_title b) && truthy (c_date b) && truthy (c_sport b)
         && truthy (c_venue b) = true).
Proof.
  unfold post_achievement.
  destruct (truthy (c_title b)), (truthy (c_date b)), (truthy (c_sport b)),
    (truthy (c_venue b)); simpl; try (by left).
  right. destruct (create_record _ _ _ _ _ _) as [a|]; [right | left]; eauto.
Qed.

Lemma blank_not_truthy v : blank v → truthy v = false.
Proof. by intros [-> | [-> | ->]]. Qed.

(** X1.  A Create whose title, date, sport or venue is absent, null or the
    empty string is answered 400 "Missing required fields" and stores
    nothing, whatever the other fields are. *)
Theorem create_rejects_blank_fields :
  blank (c_title b) ∨ blank (c_date b) ∨ blank (c_sport b)
  ∨ blank (c_venue b) →
  post_achievement parse_date now new_id userId b db
  = (status_json 400 "Missing required fields", db)
  ∧ error_class (post_achievement parse_date now new_id userId b db).1
    = Some ValidationError.
Proof.
  intros Hblank. unfold post_achievement.
  destruct Hblank as [H | [H | [H | H]]];
    apply blank_not_truthy in H; rewrite H; simpl;
    rewrite ?orb_true_r; done.
Qed.

(** X2.  A Create answered 201 adds one record under the new id, which was
    free: it is PENDING, owned by the caller, without decision reason or
    verification stamp, created at the time of the call, with the title,
    sport and venue sent.  Any other answer leaves the table as it was. *)
Theorem create_adds_pending_record :
  (statusCode (post_achievement parse_date now new_id userId b db).1 = 201%Z →
   ∃ a,
     post_achievement parse_date now new_id userId b db
     = (mkResponse 201 (AchievementBody a), <[new_id := a]> db)
     ∧ db !! new_id = None
     ∧ Achievement.id a = new_id
     ∧ Achievement.ownerId a = userId
     ∧ Achievement.status a = "PENDING"
     ∧ Achievement.decisionReason a = None
     ∧ unstamped a
     ∧ Achievement.createdAt a = now
     ∧ c_title b = JString (Achievement.title a)
     ∧ c_sport b = JString (Achievement.sport a)
     ∧ c_venue b = JString (Achievement.venue a))
  ∧ (statusCode (post_achievement parse_date now new_id userId b db).1
     ≠ 201%Z →
     (post_achievement parse_date now new_id userId b db).2 = db).
Proof.
  destruct post_achievement_cases as [[-> _] | [[-> _] | (a & -> & Hc & _)]];
    [done | done |].
  split; [intros _ | done]. exists a. split; [done |].
  unfold create_record in Hc. destruct (db !! new_id); [done |].
  destruct (c_title b), (c_sport b), (c_venue b); simplify_option_eq.
  by repeat split.
Qed.

End Creation.

(** ** More on the lifecycle: what a request can and cannot change *)

Section Steps.
Variable parse_date : string → option Z.
Variables (now : Z) (users : gmap string User.t).

(** Where a record of the table after a request comes from. *)
Lemma handle_lookup_cases req (db : gmap string Achievement.t) k a' :
  (handle parse_date now users req db).2 !! k = Some a' →
  db !! k = Some a'
  ∨ (k = request_id req ∧ db !! k = None
     ∧ ∃ new_id userId b,
         req = Create new_id userId b
         ∧ create_record parse_date now new_id userId b db = Some a')
  ∨ (k = request_id req
     ∧ ∃ a, db !! k = Some a
            ∧ ((∃ userId id b,
                  req = Update userId id b
                  ∧ Achievement.ownerId a = userId
                  ∧ update_record parse_date now b a = Some a')
               ∨ (∃ coachId id b coach,
                    req = Verify coachId id b
                    ∧ users !! coachId = Some coach
                    ∧ verify_record now coach b a = Some a'))).
Proof.
  destruct req as [new_id userId b | userId id b | userId id | coachId id b];
    simpl.
  - destruct (post_achievement_cases parse_date now new_id userId b db)
      as [[-> _] | [[-> _] | (a & -> & Hc & _)]]; [by left | by left |]. simpl.
    destruct (decide (new_id = k)) as [<- | Hne].
    + rewrite lookup_insert_eq. intros [= <-]. right. left.
      split; [done |]. split; [|by eauto].
      unfold create_record in Hc. by destruct (db !! new_id).
    + rewrite lookup_insert_ne by done. by left.
  - unfold put_achievement. destruct (db !! id) as [a|] eqn:Ha; [|by left].
    destruct (negb _) eqn:Ho; [by left |].
    destruct (update_record _ _ _ _) as [a1|] eqn:Hu; [|by left]. simpl.
    destruct (decide (id = k)) as [<- | Hne].
    + rewrite lookup_insert_eq. intros [= <-]. right. right.
      split; [done |]. exists a. split; [done |]. left.
      exists userId, id, b. apply negb_false_iff, String.eqb_eq in Ho. done.
    + rewrite lookup_insert_ne by done. by left.
  - unfold delete_achievement. destruct (db !! id) as [a|] eqn:Ha; [|by left].
    destruct (negb _); [by left |]. destruct (String.eqb _ _); [by left |].
    simpl. intros [_ Hk]%lookup_delete_Some. by left.
  - unfold patch_achievement_verify. destruct (not_a_coach _); [by left |].
    destruct (users !! coachId) as [coach|] eqn:Hc; [|by left].
    destruct (db !! id) as [a|] eqn:Ha; [|by left].
    destruct (negb _); [by left |].
    destruct (verify_record _ _ _ _) as [a1|] eqn:Hv; [|by left]. simpl.
    destruct (decide (id = k)) as [<- | Hne].
    + rewrite lookup_insert_eq. intros [= <-]. right. right.
      split; [done |]. exists a. split; [done |]. right.
      by exists coachId, id, b, coach.
    + rewrite lookup_insert_ne by done. by left.
Qed.

(** X3.  A request leaves every record other than the one it names as it
    was: present with the same content, or absent. *)
Theorem request_touches_one_record req (db : gmap string Achievement.t) k :
  k ≠ request_id req →
  (handle parse_date now users req db).2 !! k = db !! k.
Proof.
  intros Hne.
  destruct req as [new_id userId b | userId id b | userId id | coachId id b];
    simpl in *.
  - destruct (post_achievement_cases parse_date now new_id userId b db)
      as [[-> _] | [[-> _] | (a & -> & _)]]; [done | done |].
    simpl. by rewrite lookup_insert_ne.
  - unfold put_achievement. destruct (db !! id) as [a|]; [|done].
    destruct (negb _); [done |].
    destruct (update_record _ _ _ _); [|done]. simpl.
    by rewrite lookup_insert_ne.
  - unfold delete_achievement. destruct (db !! id) as [a|]; [|done].
    destruct (negb _); [done |]. destruct (String.eqb _ _); [done |].
    simpl. by rewrite lookup_delete_ne.
  - unfold patch_achievement_verify. destruct (not_a_coach _); [done |].
    destruct (users !! coachId); [|done]. destruct (db !! id); [|done].
    destruct (negb _); [done |]. destruct (verify_record _ _ _ _); [|done].
    simpl. by rewrite lookup_insert_ne.
Qed.

Lemma verify_record_same_origin coach b a a' :
  verify_record now coach b a = Some a' → same_origin a a'.
Proof.
  unfold verify_record. intros H.
  destruct (set_required _ _); simplify_eq/=. done.
Qed.

Lemma update_record_same_origin b a a' :
  update_record parse_date now b a = Some a' → same_origin a a'.
Proof. unfold update_record. intros H. simplify_option_eq. done. Qed.

(** X4.  No request rewrites the id, the owner, the proof or the creation
    time of a record: a record found under a key before and after a request
    has the same four columns. *)
Theorem origin_is_never_rewritten req (db : gmap string Achievement.t)
    k a a' :
  db !! k = Some a →
  (handle parse_date now users req db).2 !! k = Some a' →
  same_origin a a'.
Proof.
  intros Ha Ha'.
  apply handle_lookup_cases in Ha'
    as [Hsame | [(_ & Hnone & _) | (_ & a0 & Ha0 & Hhow)]].
  - rewrite Ha in Hsame. by injection Hsame as <-.
  - congruence.
  - rewrite Ha in Ha0. injection Ha0 as <-.
    destruct Hhow as [(? & ? & b & _ & _ & Hu) | (? & ? & b & coach & _ & _ & Hv)].
    + by apply (update_record_same_origin b).
    + by apply (verify_record_same_origin coach b).
Qed.

(** X5.  Only a verification writes the verdict: after a Create, an Update
    or a Delete, a record still in the table has the status, the decision
    reason and the verification stamp it had. *)
Theorem verdict_only_by_verify req (db : gmap string Achievement.t) k a a' :
  is_verify req = false →
  db !! k = Some a →
  (handle parse_date now users req db).2 !! k = Some a' →
  same_verdict a a'.
Proof.
  intros Hreq Ha Ha'.
  apply handle_lookup_cases in Ha'
    as [Hsame | [(_ & Hnone & _) | (_ & a0 & Ha0 & Hhow)]].
  - rewrite Ha in Hsame. by injection Hsame as <-.
  - congruence.
  - rewrite Ha in Ha0. injection Ha0 as <-.
    destruct Hhow as [(? & ? & b & _ & _ & Hu) | (? & ? & ? & ? & -> & _)];
      [|done].
    apply update_record_keeps in Hu as (_ & _ & ? & ? & ? & ? & ? & _).
    done.
Qed.

End Steps.

(** ** More on the lifecycle: invariants of the reachable tables *)

Section Invariants.
Variable parse_date : string → option Z.

Lemma create_record_id now new_id userId b db a :
  create_record parse_date now new_id userId b db = Some a →
  Achievement.id a = new_id
  ∧ Achievement.status a = "PENDING" ∧ unstamped a.
Proof.
  unfold create_record. intros H.
  destruct (db !! new_id); [done |]. by simplify_option_eq.
Qed.

(** A property of single records that creation establishes and every
    rewrite of a record keeps holds of all records of a reachable table. *)
Lemma reachable_map_Forall (P : string → Achievement.t → Prop) :
  (∀ now new_id userId b db a,
     create_record parse_date now new_id userId b db = Some a →
     P new_id a) →
  (∀ now b k a a',
     P k a → update_record parse_date now b a = Some a' → P k a') →
  (∀ now coach b k a a',
     P k a → verify_record now coach b a = Some a' → P k a') →
  ∀ db, reachable parse_date db → map_Forall P db.
Proof.
  intros Hcreate Hupdate Hverify db Hreach.
  induction Hreach as [| now users req db _ IH]; [apply map_Forall_empty |].
  intros k a' Ha'.
  apply handle_lookup_cases in Ha'
    as [Hsame | [(-> & _ & new_id & userId & b & -> & Hc)
                | (_ & a & Ha & Hhow)]].
  - by apply IH.
  - by apply (Hcreate now new_id userId b db).
  - destruct Hhow as [(? & ? & b & _ & _ & Hu) | (? & ? & b & coach & _ & _ & Hv)].
    + apply (Hupdate now b k a); [by apply IH | done].
    + apply (Hverify now coach b k a); [by apply IH | done].
Qed.

(** X6.  In every table the lifecycle reaches, a record sits under its own
    id: the key it is found with is its [id] column. *)
Theorem reachable_well_keyed db :
  reachable parse_date db → well_keyed db.
Proof.
  apply (reachable_map_Forall (λ k a, Achievement.id a = k)).
  - intros now new_id userId b db' a Hc.
    by apply create_record_id in Hc as [? _].
  - intros now b k a a' Hk Hu.
    apply update_record_same_origin in Hu as [-> _]. done.
  - intros now coach b k a a' Hk Hv.
    apply verify_record_same_origin in Hv as [-> _]. done.
Qed.

(** X7.  In every table the lifecycle reaches, the three columns of the
    verification stamp are all set or all null, and a record whose status is
    not PENDING carries the stamp. *)
Theorem reachable_stamp_whole db id a :
  reachable parse_date db →
  db !! id = Some a →
  (stamped a ∨ unstamped a)
  ∧ (Achievement.status a ≠ "PENDING" → stamped a).
Proof.
  intros Hreach.
  apply (reachable_map_Forall
           (λ _ a, (stamped a ∨ unstamped a)
                   ∧ (Achievement.status a ≠ "PENDING" → stamped a)));
    [| | |done].
  - intros now new_id userId b db' a' Hc.
    apply create_record_id in Hc as (_ & Hst & Hun). split; [by right |].
    by rewrite Hst.
  - intros now b k a0 a' [Hor Himp] Hu.
    apply update_record_keeps in Hu as (_ & _ & Es & _ & Ei & En & Et & _).
    unfold stamped, unstamped in *. by rewrite Es, Ei, En, Et.
  - intros now coach b k a0 a' _ Hv.
    apply verify_record_fields in Hv as (_ & _ & Ei & En & Et).
    assert (stamped a') as Hs
      by (unfold stamped; rewrite Ei, En, Et; eauto).
    split; [by left | done].
Qed.

End Invariants.

(** ** More on the owner's requests *)

Section OwnerMore.
Variable parse_date : string → option Z.
Variables (now : Z) (userId id : string).
Variable db : gmap string Achievement.t.

(** X8.  Delete is answered 204 exactly when the record exists, is the
    caller's and is not APPROVED; the record is then gone from the table.
    With any other answer the table is the one before the call. *)
Theorem delete_removes_own_undecided :
  (statusCode (delete_achievement userId id db).1 = 204%Z
   ↔ ∃ a, db !! id = Some a ∧ Achievement.ownerId a = userId
          ∧ Achievement.status a ≠ "APPROVED")
  ∧ (statusCode (delete_achievement userId id db).1 = 204%Z →
     (delete_achievement userId id db).2 = delete id db
     ∧ (delete_achievement userId id db).2 !! id = None)
  ∧ (statusCode (delete_achievement userId id db).1 ≠ 204%Z →
     (delete_achievement userId id db).2 = db).
Proof.
  unfold delete_achievement. destruct (db !! id) as [a|] eqn:Ha.
  - destruct (String.eqb (Achievement.ownerId a) userId) eqn:Ho; simpl.
    + apply String.eqb_eq in Ho.
      destruct (String.eqb (Achievement.status a) "APPROVED") eqn:Hs; simpl.
      * apply String.eqb_eq in Hs. repeat split; try done.
        by intros (a' & [= <-] & _ & Hne).
      * apply String.eqb_neq in Hs. repeat split; try done.
        -- intros _. by exists a.
        -- by rewrite lookup_delete_eq.
    + apply String.eqb_neq in Ho. repeat split; try done.
      by intros (a' & [= <-] & Ho' & _).
  - simpl. repeat split; try done. by intros (a & ? & _).
Qed.


(** X10.  An Update answered 200 stores, under the same id, the record with
    each of title, sport, venue and description replaced by the string sent
    or kept when the field is left out, the description cleared by a null,
    and [updatedAt] set to the time of the call. *)
Theorem update_writes_fields b r db' :
  put_achievement parse_date now userId id b db = (r, db') →
  statusCode r = 200%Z →
  ∃ a a',
    db !! id = Some a ∧ Achievement.ownerId a = userId
    ∧ r = json (AchievementBody a') ∧ db' = <[id := a']> db
    ∧ Achievement.title a'
      = match u_title b with JString s => s | _ => Achievement.title a end
    ∧ Achievement.sport a'
      = match u_sport b with JString s => s | _ => Achievement.sport a end
    ∧ Achievement.venue a'
      = match u_venue b with JString s => s | _ => Achievement.venue a end
    ∧ Achievement.description a'
      = match u_description b with
        | JString s => Some s
        | JNull => None
        | JUndefined => Achievement.description a
        end
    ∧ Some (Achievement.date a') = new_Date parse_date (u_date b)
    ∧ Achievement.updatedAt a' = now.
Proof.
  unfold put_achievement. intros H Hok.
  destruct (db !! id) as [a|] eqn:Ha; [|by simplify_eq/=].
  destruct (negb _) eqn:Ho; [by simplify_eq/= |].
  apply negb_false_iff, String.eqb_eq in Ho.
  destruct (update_record _ _ _ _) as [a'|] eqn:Hu; [|by simplify_eq/=].
  simplify_eq/=. exists a, a'. do 4 (split; [done |]).
  unfold update_record in Hu.
  destruct (u_title b), (u_sport b), (u_venue b), (u_description b);
    simplify_option_eq; done.
Qed.

(** X11.  An owner's edit does not resubmit: when the record under the id
    is not PENDING, every coach's queue after the Update holds the rows it
    held before, whatever the answer. *)
Theorem update_does_not_resubmit b a users sport x :
  db !! id = Some a →
  Achievement.status a ≠ "PENDING" →
  x ∈ row <$> find_pending users sport
                (put_achievement parse_date now userId id b db).2
  ↔ x ∈ row <$> find_pending users sport db.
Proof.
  intros Ha Hst. rewrite !find_pending_elem.
  assert (∀ k y, pending_in sport y →
            (put_achievement parse_date now userId id b db).2 !! k = Some y
            ↔ db !! k = Some y) as Hsame.
  { intros k y [Hy _]. unfold put_achievement. rewrite Ha.
    destruct (negb _); [done |].
    destruct (update_record _ _ _ _) as [a'|] eqn:Hu; [|done]. simpl.
    apply update_record_keeps in Hu as (_ & _ & Es & _).
    destruct (decide (id = k)) as [<- | Hne].
    - rewrite lookup_insert_eq, Ha. split; intros [= <-]; congruence.
    - by rewrite lookup_insert_ne. }
  split; intros [[k Hk] Hp]; (split; [exists k; by apply (Hsame k x Hp) | done]).
Qed.

End OwnerMore.

(** ** How the requests compose *)

Section Composition.
Variable parse_date : string → option Z.

(** X12.  What a Create answered 201 added, the owner's Delete takes away
    again: it is answered 204 and the table is the one before the Create. *)
Theorem create_then_delete now new_id userId b db :
  statusCode (post_achievement parse_date now new_id userId b db).1 = 201%Z →
  delete_achievement userId new_id
    (post_achievement parse_date now new_id userId b db).2
  = (mkResponse 204 EmptyBody, db).
Proof.
  destruct (post_achievement_cases parse_date now new_id userId b db)
    as [[-> _] | [[-> _] | (a & -> & Hc & _)]]; [done | done |].
  intros _. simpl. unfold delete_achievement. rewrite lookup_insert_eq.
  assert (db !! new_id = None) as Hfree
    by (unfold create_record in Hc; by destruct (db !! new_id)).
  unfold create_record in Hc. rewrite Hfree in Hc. simplify_option_eq.
  rewrite String.eqb_refl. simpl. by rewrite delete_insert_id.
Qed.

(** X13.  A decision takes the record out of the queue and nothing else:
    in a table where records sit under their ids, after a Verify answered
    200 with a decision string other than PENDING, a coach's queue holds
    exactly the rows it held before whose id is not the verified one. *)
Theorem verify_leaves_queue now users coachId id d rsn db r db' sport x :
  well_keyed db →
  d ≠ "PENDING" →
  patch_achievement_verify now users coachId id
    (mkVerifyBody (JString d) rsn) db = (r, db') →
  statusCode r = 200%Z →
  x ∈ row <$> find_pending users sport db'
  ↔ x ∈ row <$> find_pending users sport db ∧ Achievement.id x ≠ id.
Proof.
  intros Hkeys Hd Hv Hok.
  destruct (verify_ok_inv now users coachId id db _ r db' Hv Hok)
    as (coach & a & a' & _ & Ha & Hrec & -> & ->).
  apply verify_record_fields in Hrec as (Hst & _). simpl in Hst.
  injection Hst as Hst. rewrite !find_pending_elem. split.
  - intros [[k Hk] Hp].
    destruct (decide (id = k)) as [<- | Hne].
    + rewrite lookup_insert_eq in Hk. injection Hk as <-.
      destruct Hp as [Hp _]. congruence.
    + rewrite lookup_insert_ne in Hk by done.
      split; [split; [by exists k | done] |].
      rewrite (Hkeys k x Hk). done.
  - intros [[[k Hk] Hp] Hne]. split; [|done]. exists k.
    rewrite lookup_insert_ne; [done |].
    intros <-. by rewrite (Hkeys id x Hk) in Hne.
Qed.

End Composition.

(** ** The owner's list *)

Section Mine.
Variables (userId : string) (db : gmap string Achievement.t).

(** X14.  The owner's list holds, up to order, the records of the table
    whose owner is the caller, and no record of anyone else; each record is
    at least as new as the records after it. *)
Theorem my_achievements_are_mine :
  get_achievements_my userId db
  ≡ₚ filter (owned_by userId) (snd <$> map_to_list db)
  ∧ (∀ a, a ∈ get_achievements_my userId db
          ↔ (∃ id, db !! id = Some a) ∧ Achievement.ownerId a = userId)
  ∧ StronglySorted newer_first (get_achievements_my userId db).
Proof.
  unfold get_achievements_my. split; [apply merge_sort_Permutation |]. split.
  - intros a. rewrite merge_sort_Permutation.
    rewrite list_elem_of_filter, list_elem_of_fmap. split.
    + intros [Hp ([id a'] & -> & Hin)]. apply elem_of_map_to_list in Hin.
      split; [by exists id | done].
    + intros [[id Hid] Hp]. split; [done |].
      exists (id, a). split; [done |]. by apply elem_of_map_to_list.
  - apply StronglySorted_merge_sort; apply _.
Qed.

End Mine.

(** ** More on the coach report *)

Lemma attendance_rate_counts l :
  attendance_rate l = rate_of_counts (length (filter approved l)) (length l).
Proof. done. Qed.


Lemma for_all_counts_spec check (n a t : nat) :
  for_all_counts check n = true →
  (1 ≤ t ≤ n)%nat → (a ≤ t)%nat → check a t = true.
Proof.
  unfold for_all_counts. intros Hall Ht Ha.
  rewrite forallb_forall in Hall.
  assert (In t (seq 1 n)) as Hin by (apply in_seq; lia).
  specialize (Hall t Hin). rewrite forallb_forall in Hall.
  apply Hall. apply in_seq. lia.
Qed.

Section Report.
Variables (thirtyDaysAgo : Z) (users : gmap string User.t).
Variables (schedules : gmap string Schedule.t).
Variables (requests : gmap string ScheduleRequest.t) (coachId : string).

(** X15.  The report is for coaches only, and its rate is null exactly
    when the window is empty: a caller who is not a Coach with a sport is
    answered 403 "Forbidden"; a Coach with a sport is answered 200 with a
    rate that is null if and only if no request under the coach's schedules
    was created at or after the cutoff. *)
Theorem report_guard_and_null_rate :
  ((¬ ∃ s, coach_with_sport (users !! coachId) s) →
   get_reports_coach thirtyDaysAgo users schedules requests coachId
   = status_json 403 "Forbidden")
  ∧ ∀ coach s,
      users !! coachId = Some coach →
      coach_with_sport (Some coach) s →
      ∃ rate,
        get_reports_coach thirtyDaysAgo users schedules requests coachId
        = json (KpisBody (mkKpis rate))
        ∧ (rate = None
           ↔ ∀ k r, requests !! k = Some r →
                    ¬ under_coach_since schedules (User.id coach)
                        thirtyDaysAgo r).
Proof.
  split.
  - intros Hno. unfold get_reports_coach.
    destruct (not_a_coach (users !! coachId)) eqn:Hg; [done |].
    apply not_a_coach_false in Hg. by destruct Hno.
  - intros coach s Hc Hs.
    assert (not_a_coach (Some coach) = false) as Hg
      by (apply not_a_coach_false; eauto).
    eexists. split; [by apply reports_coach_rate |].
    rewrite attendance_rate_null. split.
    + intros Hnil k r Hk Hr.
      assert (r ∈ filter (under_coach_since schedules (User.id coach)
                            thirtyDaysAgo) (snd <$> map_to_list requests))
        as Hin.
      { apply list_elem_of_filter. split; [done |].
        apply list_elem_of_fmap. exists (k, r). split; [done |].
        by apply elem_of_map_to_list. }
      rewrite Hnil in Hin. by apply not_elem_of_nil in Hin.
    + intros Hnone.
      destruct (filter _ _) as [|r l] eqn:Hf; [done |].
      assert (r ∈ filter (under_coach_since schedules (User.id coach)
                            thirtyDaysAgo) (snd <$> map_to_list requests))
        as Hin by (rewrite Hf; left).
      apply list_elem_of_filter in Hin as [Hr Hin].
      apply list_elem_of_fmap in Hin as ([k r'] & -> & Hin).
      apply elem_of_map_to_list in Hin. by destruct (Hnone k r').
Qed.


(** X17.  With fewer than 40 requests in the window the rate is the stated
    one: for a Coach with a sport and a window of 1 to 39 requests, the
    report's rate is round(100 * approved / total), a tie going up. *)
Theorem rate_exact_below_40 coach s :
  users !! coachId = Some coach →
  coach_with_sport (Some coach) s →
  let window :=
    filter (under_coach_since schedules (User.id coach) thirtyDaysAgo)
           (snd <$> map_to_list requests) in
  (1 ≤ length window < 40)%nat →
  get_reports_coach thirtyDaysAgo users schedules requests coachId
  = json (KpisBody (mkKpis (Some (number_of_Z
      (stated_rate (Z.of_nat (length (filter approved window)))
                   (Z.of_nat (length window))))))).
Proof.
  intros Hc Hs window Hlen.
  assert (not_a_coach (Some coach) = false) as Hg
    by (apply not_a_coach_false; eauto).
  rewrite (reports_coach_rate _ _ _ _ _ coach Hc Hg).
  fold window. rewrite attendance_rate_counts.
  assert (rate_agrees (length (filter approved window)) (length window)
          = true) as Hagree.
  { apply (for_all_counts_spec rate_agrees 39).
    - vm_compute; reflexivity.
    - lia.
    - apply length_filter. }
  unfold rate_agrees in Hagree.
  destruct (rate_of_counts _ _) as [x|]; [|done].
  apply FloatAxioms.Leibniz.eqb_spec in Hagree. by rewrite Hagree.
Qed.

(** X18.  With up to 500 requests in the window the rate is the stated one
    or the whole number just below it, never anything else. *)
Theorem rate_near_up_to_500 coach s :
  users !! coachId = Some coach →
  coach_with_sport (Some coach) s →
  let window :=
    filter (under_coach_since schedules (User.id coach) thirtyDaysAgo)
           (snd <$> map_to_list requests) in
  let stated :=
    stated_rate (Z.of_nat (length (filter approved window)))
                (Z.of_nat (length window)) in
  (1 ≤ length window ≤ 500)%nat →
  get_reports_coach thirtyDaysAgo users schedules requests coachId
  = json (KpisBody (mkKpis (Some (number_of_Z stated))))
  ∨ get_reports_coach thirtyDaysAgo users schedules requests coachId
    = json (KpisBody (mkKpis (Some (number_of_Z (stated - 1))))).
Proof.
  intros Hc Hs window stated Hlen.
  assert (not_a_coach (Some coach) = false) as Hg
    by (apply not_a_coach_false; eauto).
  rewrite (reports_coach_rate _ _ _ _ _ coach Hc Hg).
  fold window. rewrite attendance_rate_counts.
  assert (rate_near (length (filter approved window)) (length window)
          = true) as Hnear.
  { apply (for_all_counts_spec rate_near 500).
    - vm_compute; reflexivity.
    - lia.
    - apply length_filter. }
  unfold rate_near in Hnear. fold stated in Hnear.
  destruct (rate_of_counts _ _) as [x|]; [|done].
  apply orb_prop in Hnear as [H | H];
    apply FloatAxioms.Leibniz.eqb_spec in H; rewrite H; [by left | by right].
Qed.

End Report.

(** ** Starting the server *)

Lemma startServer_from_listening listen (tries : nat) (port p : Z) :
  (port + Z.of_nat tries = 65535)%Z →
  startServer_from listen tries port = Listening p
  ↔ (0 ≤ port ≤ p)%Z ∧ (p ≤ 65535)%Z ∧ listen p = Listens
    ∧ ∀ q, (port ≤ q < p)%Z → listen q = ErrorEvent "EADDRINUSE".
Proof.
  revert port. induction tries as [|tries IH]; intros port Hsum.
  - assert (port = 65535%Z) as -> by lia. simpl.
    destruct (listen 65535%Z) as [|code] eqn:Hl.
    + split.
      * intros [= <-]. repeat split; try done; intros q Hq; lia.
      * intros (Hp & Hp' & _ & _). f_equal. lia.
    + split.
      * destruct (String.eqb code "EADDRINUSE"); done.
      * intros (Hp & Hp' & Hlp & _). assert (p = 65535%Z) as -> by lia.
        congruence.
  - simpl. destruct ((port <? 0)%Z || (65535 <? port)%Z) eqn:Hrange.
    + split; [done |]. intros (Hp & Hp' & _).
      apply orb_true_iff in Hrange as [H | H]; apply Z.ltb_lt in H; lia.
    + apply orb_false_iff in Hrange as [H0 H1].
      apply Z.ltb_ge in H0, H1.
      destruct (listen port) as [|code] eqn:Hl.
      * split.
        -- intros [= <-]. repeat split; try done; try lia; intros q Hq; lia.
        -- intros (Hp & Hp' & Hlp & Hbusy).
           destruct (decide (port = p)) as [-> | Hne]; [done |].
           rewrite Hbusy in Hl by lia. done.
      * destruct (String.eqb code "EADDRINUSE") eqn:Hcode.
        -- apply String.eqb_eq in Hcode as ->.
           rewrite IH by lia. split.
           ++ intros (Hp & Hp' & Hlp & Hbusy).
              split; [lia |]. split; [done |]. split; [done |].
              intros q Hq. destruct (decide (q = port)) as [-> | Hne];
                [done | apply Hbusy; lia].
           ++ intros (Hp & Hp' & Hlp & Hbusy).
              assert (port ≠ p) as Hne by (intros ->; congruence).
              split; [lia |]. split; [done |]. split; [done |].
              intros q Hq. apply Hbusy. lia.
        -- apply String.eqb_neq in Hcode. split; [done |].
           intros (Hp & Hp' & Hlp & Hbusy).
           destruct (decide (port = p)) as [-> | Hne]; [congruence |].
           rewrite Hbusy in Hl by lia. congruence.
Qed.

(** X19.  The server ends up listening on [p] exactly when [p] is the first
    port from the start port on, not beyond 65535, that is not in use: every
    port from the start port up to [p] answered EADDRINUSE and [p] itself
    took the server. *)
Theorem startServer_first_free_port listen start p :
  startServer listen start = Listening p
  ↔ (0 ≤ start ≤ p)%Z ∧ (p ≤ 65535)%Z ∧ listen p = Listens
    ∧ ∀ q, (start ≤ q < p)%Z → listen q = ErrorEvent "EADDRINUSE".
Proof.
  unfold startServer.
  destruct (decide (start ≤ 65535)%Z) as [Hle | Hgt].
  - apply startServer_from_listening. lia.
  - replace (Z.to_nat (65535 - start)) with 0%nat by lia. simpl.
    replace ((start <? 0)%Z || (65535 <? start)%Z) with true.
    + split; [done | lia].
    + symmetry. apply orb_true_iff. right. apply Z.ltb_lt. lia.
Qed.

(** ** Accounts: registration and login *)

Lemma email_or_username_true email username u :
  email_or_username email username u = true
  ↔ Profile.email (Account.profile u) = email
    ∨ User.username (Profile.user (Account.profile u)) = username.
Proof.
  unfold email_or_username. by rewrite orb_true_iff, !String.eqb_eq.
Qed.

Lemma find_first_None P (accounts : gmap string Account.t) :
  find_first P accounts = None
  ↔ ∀ k u, accounts !! k = Some u → P u = false.
Proof.
  unfold find_first. split.
  - intros Hhead k u Hk.
    destruct (P u) eqn:HP; [|done].
    assert (u ∈ filter (λ u, P u = true) (snd <$> map_to_list accounts))
      as Hin.
    { apply list_elem_of_filter. split; [done |].
      apply list_elem_of_fmap. exists (k, u). split; [done |].
      by apply elem_of_map_to_list. }
    destruct (filter _ _); [by apply not_elem_of_nil in Hin | done].
  - intros Hnone.
    destruct (filter _ _) as [|u l] eqn:Hf; [done |].
    assert (u ∈ filter (λ u, P u = true) (snd <$> map_to_list accounts))
      as Hin by (rewrite Hf; left).
    apply list_elem_of_filter in Hin as [HP Hin].
    apply list_elem_of_fmap in Hin as ([k u'] & -> & Hin).
    apply elem_of_map_to_list in Hin. simpl in HP.
    rewrite (Hnone k u' Hin) in HP. done.
Qed.

Lemma find_first_Some P (accounts : gmap string Account.t) u :
  find_first P accounts = Some u →
  P u = true ∧ ∃ k, accounts !! k = Some u.
Proof.
  unfold find_first. intros Hhead.
  assert (u ∈ filter (λ u, P u = true) (snd <$> map_to_list accounts))
    as Hin.
  { destruct (filter _ _) as [|u' l]; [done |]. injection Hhead as ->. left. }
  apply list_elem_of_filter in Hin as [HP Hin]. split; [done |].
  apply list_elem_of_fmap in Hin as ([k u'] & -> & Hin).
  apply elem_of_map_to_list in Hin. by exists k.
Qed.

Lemma prim_truthy_string v s :
  v = PString s → (prim_truthy v = true ↔ s ≠ "").
Proof. intros ->. simpl. by rewrite negb_true_iff, String.eqb_neq. Qed.

Section Registration.
Variables toLowerCase : string → string.
Variable bcrypt_hash : string → string → string.
Variable jwt_sign : string → string.
Variables (salt new_id : string) (b : RegisterBody).
Variable accounts : gmap string Account.t.

Local Abbreviation register :=
  (post_auth_register toLowerCase bcrypt_hash jwt_sign salt new_id b accounts).

(** A registration is turned down with the table untouched, or it inserts
    the new account. *)
Lemma register_cases :
  (register.2 = accounts ∧ u_statusCode register.1 ≠ 201%Z)
  ∨ ∃ username email password,
      r_username b = PString username ∧ username ≠ ""
      ∧ r_email b = PString email ∧ email ≠ ""
      ∧ r_password b = PString password ∧ password ≠ ""
      ∧ accounts !! new_id = None
      ∧ find_first (email_or_username (toLowerCase email) username) accounts
        = None
      ∧ register
        = (mkUserResponse 201 (SetSid (jwt_sign new_id))
             (PublicUser
                (Account.profile
                   (new_account new_id username (toLowerCase email)
                      (bcrypt_hash salt password)))),
           <[new_id := new_account new_id username (toLowerCase email)
                         (bcrypt_hash salt password)]> accounts).
Proof.
  unfold post_auth_register.
  destruct (prim_truthy (r_username b)) eqn:Hu; [|by left].
  destruct (prim_truthy (r_email b)) eqn:He; [|by left].
  destruct (prim_truthy (r_password b)) eqn:Hp; [|by left]. simpl.
  destruct (r_email b) as [| | email | |] eqn:Ee; try (by left).
  destruct (r_username b) as [| | username | |] eqn:Eu; try (by left).
  destruct (find_first _ _) eqn:Hfind; [by left |].
  destruct (r_password b) as [| | password | |] eqn:Ep; try (by left).
  destruct (accounts !! new_id) eqn:Hfree; [by left |].
  right. exists username, email, password.
  apply (prim_truthy_string _ _ eq_refl) in Hu, He, Hp. done.
Qed.

(** X20.  A registration answered 201 adds one account, under an id that
    was free: a Player without sport, with the username as sent, the email
    in lower case and the hash of the password; nobody in the table had
    that email or that username; the cookie is the token of the new id.  Any
    other answer leaves the table as it was. *)
Theorem register_adds_a_player :
  (u_statusCode
     (post_auth_register toLowerCase bcrypt_hash jwt_sign salt new_id b
        accounts).1 = 201%Z →
   ∃ username email password u,
     r_username b = PString username ∧ r_email b = PString email
     ∧ r_password b = PString password
     ∧ accounts !! new_id = None
     ∧ (post_auth_register toLowerCase bcrypt_hash jwt_sign salt new_id b
          accounts).2 = <[new_id := u]> accounts
     ∧ (post_auth_register toLowerCase bcrypt_hash jwt_sign salt new_id b
          accounts).1
       = mkUserResponse 201 (SetSid (jwt_sign new_id))
           (PublicUser (Account.profile u))
     ∧ User.id (Profile.user (Account.profile u)) = new_id
     ∧ User.username (Profile.user (Account.profile u)) = username
     ∧ User.role (Profile.user (Account.profile u)) = "Player"
     ∧ User.sport (Profile.user (Account.profile u)) = None
     ∧ Profile.email (Account.profile u) = toLowerCase email
     ∧ Account.passwordHash u = bcrypt_hash salt password
     ∧ ∀ k u0, accounts !! k = Some u0 →
         Profile.email (Account.profile u0) ≠ toLowerCase email
         ∧ User.username (Profile.user (Account.profile u0)) ≠ username)
  ∧ (u_statusCode
       (post_auth_register toLowerCase bcrypt_hash jwt_sign salt new_id b
          accounts).1 ≠ 201%Z →
     (post_auth_register toLowerCase bcrypt_hash jwt_sign salt new_id b
        accounts).2 = accounts).
Proof.
  destruct register_cases
    as [[Hsame Hne] | (username & email & password & Eu & _ & Ee & _ & Ep & _
                       & Hfree & Hfind & ->)].
  - split; [done | by intros _].
  - split; [intros _ | done].
    exists username, email, password,
      (new_account new_id username (toLowerCase email)
         (bcrypt_hash salt password)).
    do 12 (split; [done |]). intros k u0 Hk.
    rewrite find_first_None in Hfind. specialize (Hfind k u0 Hk).
    apply not_true_iff_false in Hfind.
    rewrite email_or_username_true in Hfind. split; intros ?; apply Hfind; eauto.
Qed.

(** X21.  Registration keeps emails and usernames distinct: when no two
    accounts share an email or a username before a registration, none do
    after it, whatever the answer. *)
Theorem register_keeps_logins_distinct :
  distinct_logins accounts → distinct_logins register.2.
Proof.
  intros Hdistinct.
  destruct register_cases
    as [[-> _] | (username & email & password & _ & _ & _ & _ & _ & _
                  & Hfree & Hfind & ->)]; [done |].
  rewrite find_first_None in Hfind. simpl.
  assert (∀ k u0, accounts !! k = Some u0 →
            Profile.email (Account.profile u0) ≠ toLowerCase email
            ∧ User.username (Profile.user (Account.profile u0)) ≠ username)
    as Hnew.
  { intros k u0 Hk. specialize (Hfind k u0 Hk).
    apply not_true_iff_false in Hfind.
    rewrite email_or_username_true in Hfind.
    split; intros ?; apply Hfind; eauto. }
  intros k1 k2 u1 u2 H1 H2 Hshare.
  destruct (decide (new_id = k1)) as [<- | Hn1],
    (decide (new_id = k2)) as [<- | Hn2]; [done | | |].
  - rewrite lookup_insert_eq in H1. rewrite lookup_insert_ne in H2 by done.
    injection H1 as <-. destruct (Hnew k2 u2 H2) as [He Hu]. simpl in Hshare.
    destruct Hshare as [E | E]; [by destruct He | by destruct Hu].
  - rewrite lookup_insert_eq in H2. rewrite lookup_insert_ne in H1 by done.
    injection H2 as <-. destruct (Hnew k1 u1 H1) as [He Hu]. simpl in Hshare.
    destruct Hshare as [E | E]; [by destruct He | by destruct Hu].
  - rewrite lookup_insert_ne in H1, H2 by done. by apply (Hdistinct k1 k2 u1 u2).
Qed.

End Registration.

Section Login.
Variables toLowerCase trim : string → string.
Variable bcrypt_compare : string → string → bool.
Variable jwt_sign : string → string.
Variable Number_toString : float → string.
Variables (b : LoginBody) (accounts : gmap string Account.t).

Local Abbreviation login :=
  (post_auth_login toLowerCase trim bcrypt_compare jwt_sign Number_toString
     b accounts).
Local Abbreviation idLower :=
  (toLowerCase (trim (String_ Number_toString (l_identifier b)))).

(** A login answered 200 was granted against a stored account. *)
Lemma login_ok_inv :
  u_statusCode login = 200%Z →
  ∃ user password,
    find_first (email_or_username idLower idLower) accounts = Some user
    ∧ l_password b = PString password
    ∧ bcrypt_compare password (Account.passwordHash user) = true
    ∧ login
      = mkUserResponse 200
          (SetSid (jwt_sign (User.id (Profile.user (Account.profile user)))))
          (PublicUser (Account.profile user)).
Proof.
  unfold post_auth_login.
  destruct (_ || _); [done |].
  destruct (find_first _ _) as [user|] eqn:Hfind; [|done].
  destruct (l_password b) as [| | password | |]; try done.
  destruct (bcrypt_compare _ _) eqn:Hcmp; [|done].
  intros _. by exists user, password.
Qed.

(** X22.  An unknown identifier and a wrong password are refused alike:
    when identifier and password are given, the password being a string,
    and no account with the lower-cased, trimmed identifier as email or
    username has a hash the password matches, the answer is the one 401
    "Invalid credentials", whether such an account exists or not. *)
Theorem login_refusals_alike password :
  prim_truthy (l_identifier b) = true →
  l_password b = PString password →
  password ≠ "" →
  (∀ k u, accounts !! k = Some u →
          Profile.email (Account.profile u) = idLower
          ∨ User.username (Profile.user (Account.profile u)) = idLower →
          bcrypt_compare password (Account.passwordHash u) = false) →
  login = user_error 401 "Invalid credentials".
Proof.
  intros Hid Hpw Hne Hwrong. unfold post_auth_login.
  rewrite Hid, Hpw. simpl. apply String.eqb_neq in Hne. rewrite Hne. simpl.
  destruct (find_first _ _) as [user|] eqn:Hfind; [|done].
  apply find_first_Some in Hfind as [Hmatch [k Hk]].
  apply email_or_username_true in Hmatch.
  by rewrite (Hwrong k user Hk Hmatch).
Qed.

(** X23.  A login is only granted against a stored hash: a 200 carries the
    public profile of an account of the table whose email or username is
    the lower-cased, trimmed identifier and whose hash the password
    matches, and the cookie is the token of that account's id. *)
Theorem login_granted_against_hash :
  u_statusCode login = 200%Z →
  ∃ k user password,
    accounts !! k = Some user
    ∧ (Profile.email (Account.profile user) = idLower
       ∨ User.username (Profile.user (Account.profile user)) = idLower)
    ∧ l_password b = PString password
    ∧ bcrypt_compare password (Account.passwordHash user) = true
    ∧ login
      = mkUserResponse 200
          (SetSid (jwt_sign (User.id (Profile.user (Account.profile user)))))
          (PublicUser (toPublicUser user)).
Proof.
  intros Hok.
  destruct (login_ok_inv Hok) as (user & password & Hfind & Hpw & Hcmp & Hr).
  apply find_first_Some in Hfind as [Hmatch [k Hk]].
  apply email_or_username_true in Hmatch.
  by exists k, user, password.
Qed.

(** X24.  The identifier is lower-cased, stored usernames are not: whoever
    is logged into an account whose username is not in lower case got there
    through the email.  (Lower-casing twice is lower-casing once.) *)
Theorem login_by_username_needs_lower_case p :
  toLowerCase idLower = idLower →
  u_statusCode
    (post_auth_login toLowerCase trim bcrypt_compare jwt_sign
       Number_toString b accounts) = 200%Z →
  u_body
    (post_auth_login toLowerCase trim bcrypt_compare jwt_sign
       Number_toString b accounts) = PublicUser p →
  toLowerCase (User.username (Profile.user p))
  ≠ User.username (Profile.user p) →
  Profile.email p = idLower.
Proof.
  intros Hidem Hok Hbody Hupper.
  destruct (login_ok_inv Hok) as (user & password & Hfind & _ & _ & Hr).
  rewrite Hr in Hbody. injection Hbody as <-.
  apply find_first_Some in Hfind as [Hmatch _].
  apply email_or_username_true in Hmatch as [He | Hu]; [done |].
  destruct Hupper. by rewrite Hu.
Qed.

End Login.

Lemma find_first_unique P (accounts : gmap string Account.t) k u :
  accounts !! k = Some u →
  P u = true →
  (∀ k' u', accounts !! k' = Some u' → P u' = true → u' = u) →
  find_first P accounts = Some u.
Proof.
  intros Hk HP Honly.
  destruct (find_first P accounts) as [u'|] eqn:Hfind.
  - apply find_first_Some in Hfind as [HP' [k' Hk']].
    by rewrite (Honly k' u' Hk' HP').
  - rewrite find_first_None in Hfind. rewrite (Hfind k u Hk) in HP. done.
Qed.

Section Session.
Variables toLowerCase trim : string → string.
Variable bcrypt_hash : string → string → string.
Variable bcrypt_compare : string → string → bool.
Variable jwt_sign : string → string.
Variable jwt_verify : string → option string.
Variable Number_toString : float → string.
Variables (salt new_id : string) (b : RegisterBody).
Variable accounts : gmap string Account.t.

Local Abbreviation register :=
  (post_auth_register toLowerCase bcrypt_hash jwt_sign salt new_id b accounts).

(** X25.  Who has registered can log in: after a registration answered
    201, a login with the email and the password sent is answered 200 with
    the public profile the registration answered with — provided the email
    has no blanks around it for [trim] to cut, the password matches its own
    hash, and nobody's username is the lower-cased email. *)
Theorem register_then_login email password :
  u_statusCode register.1 = 201%Z →
  r_email b = PString email →
  r_password b = PString password →
  toLowerCase (trim email) = toLowerCase email →
  bcrypt_compare password (bcrypt_hash salt password) = true →
  (∀ k u, accounts !! k = Some u →
          User.username (Profile.user (Account.profile u))
          ≠ toLowerCase email) →
  u_statusCode
    (post_auth_login toLowerCase trim bcrypt_compare jwt_sign
       Number_toString (mkLoginBody (PString email) (PString password))
       register.2) = 200%Z
  ∧ u_body
      (post_auth_login toLowerCase trim bcrypt_compare jwt_sign
         Number_toString (mkLoginBody (PString email) (PString password))
         register.2)
    = u_body register.1.
Proof.
  intros Hok Ee Ep Htrim Hcmp Hnames.
  destruct (register_cases toLowerCase bcrypt_hash jwt_sign salt new_id b
              accounts)
    as [[_ Hne] | (username & email' & password' & Eu & _ & Ee' & He & Ep'
                   & Hp & Hfree & Hfind & Hreg)]; [done |].
  rewrite Ee in Ee'. injection Ee' as <-.
  rewrite Ep in Ep'. injection Ep' as <-.
  rewrite Hreg. simpl. unfold post_auth_login. simpl.
  apply String.eqb_neq in He, Hp. rewrite He, Hp. simpl. rewrite Htrim.
  rewrite find_first_None in Hfind.
  set (u := new_account new_id username (toLowerCase email)
              (bcrypt_hash salt password)).
  rewrite (find_first_unique _ _ new_id u).
  - simpl. by rewrite Hcmp.
  - apply lookup_insert_eq.
  - apply email_or_username_true. by left.
  - intros k' u' Hk' Hmatch.
    destruct (decide (new_id = k')) as [<- | Hnew].
    + rewrite lookup_insert_eq in Hk'. by injection Hk' as <-.
    + rewrite lookup_insert_ne in Hk' by done.
      apply email_or_username_true in Hmatch as [Hm | Hm].
      * specialize (Hfind k' u' Hk'). apply not_true_iff_false in Hfind.
        destruct Hfind. apply email_or_username_true. by left.
      * by destruct (Hnames k' u' Hk').
Qed.

(** X26.  The cookie of a registration opens the session of the new
    account: after a registration answered 201, [requireAuth] reads the new
    id from the token set and GET /api/me answers 200 with the profile the
    registration answered with — provided the token is not empty and
    verifies to the id it was signed for. *)
Theorem register_then_me :
  u_statusCode register.1 = 201%Z →
  jwt_sign new_id ≠ "" →
  jwt_verify (jwt_sign new_id) = Some new_id →
  u_cookie register.1 = SetSid (jwt_sign new_id)
  ∧ requireAuth jwt_verify (Some (jwt_sign new_id)) = inr new_id
  ∧ get_me new_id register.2
    = mkUserResponse 200 NoCookie (u_body register.1).
Proof.
  intros Hok Htoken Hverify.
  destruct (register_cases toLowerCase bcrypt_hash jwt_sign salt new_id b
              accounts)
    as [[_ Hne] | (username & email & password & _ & _ & _ & _ & _ & _ & _ & _
                   & ->)]; [done |].
  simpl. split; [done |]. split.
  - unfold requireAuth. apply String.eqb_neq in Htoken.
    by rewrite Htoken, Hverify.
  - unfold get_me. by rewrite lookup_insert_eq.
Qed.

End Session.

(** ** Accounts: the profile update *)

Section ProfileUpdate.
Variable parse_date : string → option Z.
Variable Number_of_string : string → float.
Variable Number_toString : float → string.
Variable store_number : float → option (option float).
Variables (userId : string) (accounts : gmap string Account.t).

Local Abbreviation patch b :=
  (patch_me parse_date Number_of_string Number_toString store_number userId b
     accounts).

Lemma patch_profile_same_identity b u u' :
  patch_profile parse_date Number_of_string Number_toString store_number b u
  = Some u' →
  same_identity u u'.
Proof. unfold patch_profile. intros H. by simplify_option_eq. Qed.

(** X27.  A mobile sent as a string is stored only when it is empty or ten
    digits 0 to 9: a non-empty string that is anything else is answered 400
    "Mobile must be 10 digits" with the table untouched, and after a 200 the
    caller's stored mobile is the string sent. *)
Theorem mobile_is_ten_digits b m :
  p_mobile b = PString m →
  (m ≠ "" → ten_digits m = false →
   patch b = (user_error 400 "Mobile must be 10 digits", accounts))
  ∧ (u_statusCode (patch b).1 = 200%Z →
     (m = "" ∨ ten_digits m = true)
     ∧ ∃ u, (patch b).2 !! userId = Some u
            ∧ Profile.mobile (Account.profile u) = Some m).
Proof.
  intros Hm. unfold patch_me. rewrite Hm. simpl. split.
  - intros Hne Hten. apply String.eqb_neq in Hne. by rewrite Hne, Hten.
  - destruct (String.eqb m "") eqn:Hempty; simpl;
      [| destruct (ten_digits m) eqn:Hten; simpl; [| done]];
      (destruct (accounts !! userId) as [u|]; [| done]; simpl;
       destruct (patch_profile _ _ _ _ _ _) as [u'|] eqn:Hp; [| done]);
      intros _; simpl;
      (split; [first [by left; apply String.eqb_eq | by right] |]);
      exists u'; rewrite lookup_insert_eq; (split; [done |]);
      unfold patch_profile in Hp; simplify_option_eq; simpl;
      by rewrite Hm.
Qed.

(** X28.  The role is the caller's to choose: whoever has an account can
    send role "Coach" with a sport and is from then on a Coach with that
    sport for the achievement routes. *)
Theorem anyone_becomes_coach u sport :
  accounts !! userId = Some u →
  sport ≠ "" →
  u_statusCode (patch (role_and_sport "Coach" sport)).1 = 200%Z
  ∧ coach_with_sport
      (users_of (patch (role_and_sport "Coach" sport)).2 !! userId) sport.
Proof.
  intros Hu Hs. unfold patch_me. simpl. rewrite Hu. simpl.
  split; [done |]. unfold users_of. rewrite lookup_fmap, lookup_insert_eq.
  simpl. eexists. split; [done |]. done.
Qed.

(** X29.  A profile update writes the caller's row and nothing else: every
    other account is as it was, and the caller's row keeps its id, its
    username, its email and its password hash. *)
Theorem profile_update_keeps_identity b :
  (∀ k, k ≠ userId → (patch b).2 !! k = accounts !! k)
  ∧ ∀ u', (patch b).2 !! userId = Some u' →
          ∃ u, accounts !! userId = Some u ∧ same_identity u u'.
Proof.
  unfold patch_me. destruct (_ && _).
  - split; [done |]. intros u' Hu'. exists u'. by repeat split.
  - destruct (accounts !! userId) as [u|] eqn:Hu; simpl.
    + destruct (patch_profile _ _ _ _ _ _) as [u1|] eqn:Hp; simpl.
      * split; [intros k Hk; by rewrite lookup_insert_ne |].
        intros u'. rewrite lookup_insert_eq. intros [= <-]. exists u.
        split; [done |]. by apply (patch_profile_same_identity b).
      * split; [done |]. intros u'. rewrite Hu. intros [= <-].
        exists u. by repeat split.
    + split; [done |]. intros u'. by rewrite Hu.
Qed.

End ProfileUpdate.

(** X30.  So a player can approve an achievement, their own included: after
    sending role "Coach" and the achievement's sport to PATCH /api/me, the
    same caller's Verify with decision APPROVED is answered 200 and the
    stored status is APPROVED. *)
Theorem player_approves_own_achievement parse_date Number_of_string
    Number_toString store_number userId accounts u now id rsn db a :
  accounts !! userId = Some u →
  db !! id = Some a →
  Achievement.sport a ≠ "" →
  ∃ a',
    patch_achievement_verify now
      (users_of
         (patch_me parse_date Number_of_string Number_toString store_number
            userId (role_and_sport "Coach" (Achievement.sport a)) accounts).2)
      userId id (mkVerifyBody (JString "APPROVED") rsn) db
    = (json (AchievementBody a'), <[id := a']> db)
    ∧ Achievement.status a' = "APPROVED"
    ∧ Achievement.verifiedById a'
      = Some (User.id (Profile.user (Account.profile u))).
Proof.
  intros Hu Ha Hs.
  set (accounts' := (patch_me _ _ _ _ _ _ _).2).
  assert (users_of accounts' !! userId
          = Some {| User.id := User.id (Profile.user (Account.profile u));
                    User.username :=
                      User.username (Profile.user (Account.profile u));
                    User.role := "Coach";
                    User.sport := Some (Achievement.sport a) |}) as Hcoach.
  { unfold accounts', patch_me, users_of. simpl. rewrite Hu. simpl.
    by rewrite lookup_fmap, lookup_insert_eq. }
  destruct (verify_accepts now (users_of accounts') userId id db
              (mkVerifyBody (JString "APPROVED") rsn) a "APPROVED")
    as (coach & a' & Hc & Hv & Hp); [| done | done |].
  - rewrite Hcoach. eexists. by repeat split.
  - exists a'. split; [done |].
    rewrite Hcoach in Hc. injection Hc as <-.
    apply verify_record_fields in Hv as (Hst & _ & Hi & _).
    simpl in Hst, Hi. injection Hst as Hst. done.
Qed.

(** ** The further properties on the sample data *)

Lemma queue_ex_well_keyed : well_keyed queue_ex.
Proof.
  unfold well_keyed, queue_ex.
  apply map_Forall_insert_2; [done |].
  apply map_Forall_insert_2; [done |]. apply map_Forall_empty.
Defined.

Lemma accounts_ex_alice : accounts_ex = {[ "P" := alice_ex ]}.
Proof. vm_compute; reflexivity. Defined.

Lemma create_adds_pending_record_witness :
  ∃ a,
    post_achievement parse_ex 1000 "a1" "P" create_ex ∅
    = (mkResponse 201 (AchievementBody a), <["a1" := a]> ∅)
    ∧ Achievement.status a = "PENDING"
    ∧ Achievement.ownerId a = "P".
Proof.
  destruct (create_adds_pending_record parse_ex 1000 "a1" "P" create_ex ∅)
    as [Hok _].
  destruct Hok as (a & Hpost & _ & _ & Ho & Hs & _); [vm_compute; reflexivity |].
  exists a. exact (conj Hpost (conj Hs Ho)).
Defined.

Lemma request_touches_one_record_witness :
  (handle parse_ex 7000 users_ex
     (Verify "C" "a1" (mkVerifyBody (JString "APPROVED") JUndefined))
     queue_ex).2 !! "a2"
  = queue_ex !! "a2".
Proof.
  apply (request_touches_one_record parse_ex 7000 users_ex
           (Verify "C" "a1" (mkVerifyBody (JString "APPROVED") JUndefined))
           queue_ex "a2").
  vm_compute. discriminate.
Defined.

Lemma origin_is_never_rewritten_witness :
  same_origin pending_ex
    (state_champion "APPROVED" None (Some carol) (Some 7000%Z)).
Proof.
  apply (origin_is_never_rewritten parse_ex 7000 users_ex
           (Verify "C" "a1" (mkVerifyBody (JString "APPROVED") JUndefined))
           queue_ex "a1").
  - vm_compute; reflexivity.
  - vm_compute; reflexivity.
Defined.

Lemma verdict_only_by_verify_witness :
  ∃ a',
    (handle parse_ex 7000 users_ex (Update "P" "a1" retitle_ex)
       {[ "a1" := rejected_ex ]}).2 !! "a1" = Some a'
    ∧ Achievement.title a' = "National Champion"
    ∧ same_verdict rejected_ex a'.
Proof.
  eexists. split; [vm_compute; reflexivity |]. split; [reflexivity |].
  apply (verdict_only_by_verify parse_ex 7000 users_ex
           (Update "P" "a1" retitle_ex) {[ "a1" := rejected_ex ]} "a1").
  - reflexivity.
  - vm_compute; reflexivity.
  - vm_compute; reflexivity.
Defined.

Lemma reachable_well_keyed_witness : well_keyed rejected_without_reason.
Proof.
  apply (reachable_well_keyed parse_ex).
  unfold rejected_without_reason. do 2 constructor. constructor.
Defined.

Lemma reachable_stamp_whole_witness :
  (stamped (state_champion "REJECTED" None (Some carol) (Some 2000%Z))
   ∨ unstamped (state_champion "REJECTED" None (Some carol) (Some 2000%Z)))
  ∧ (Achievement.status
       (state_champion "REJECTED" None (Some carol) (Some 2000%Z))
     ≠ "PENDING" →
     stamped (state_champion "REJECTED" None (Some carol) (Some 2000%Z))).
Proof.
  apply (reachable_stamp_whole parse_ex rejected_without_reason "a1").
  - unfold rejected_without_reason. do 2 constructor. constructor.
  - vm_compute; reflexivity.
Defined.

Lemma delete_removes_own_undecided_witness :
  (delete_achievement "P" "a1" queue_ex).2 = delete "a1" queue_ex
  ∧ (delete_achievement "P" "a1" queue_ex).2 !! "a1" = None.
Proof.
  destruct (delete_removes_own_undecided "P" "a1" queue_ex) as (_ & Hgone & _).
  apply Hgone. vm_compute; reflexivity.
Defined.


Lemma update_writes_fields_witness :
  ∃ a a',
    queue_ex !! "a1" = Some a
    ∧ (put_achievement parse_ex 7000 "P" "a1" retitle_ex queue_ex).2
      = <["a1" := a']> queue_ex
    ∧ Achievement.title a' = "National Champion"
    ∧ Achievement.description a' = Achievement.description a
    ∧ Achievement.updatedAt a' = 7000%Z.
Proof.
  destruct (update_writes_fields parse_ex 7000 "P" "a1" queue_ex retitle_ex
              (put_achievement parse_ex 7000 "P" "a1" retitle_ex queue_ex).1
              (put_achievement parse_ex 7000 "P" "a1" retitle_ex queue_ex).2)
    as (a & a' & Ha & _ & _ & Hdb & Ht & _ & _ & Hd & _ & Hu).
  - vm_compute; reflexivity.
  - vm_compute; reflexivity.
  - exists a, a'. exact (conj Ha (conj Hdb (conj Ht (conj Hd Hu)))).
Defined.

Lemma update_does_not_resubmit_witness :
  rejected_ex
  ∈ row <$> find_pending users_ex "cricket"
              (put_achievement parse_ex 7000 "P" "a1" retitle_ex
                 {[ "a1" := rejected_ex ]}).2
  ↔ rejected_ex
    ∈ row <$> find_pending users_ex "cricket" {[ "a1" := rejected_ex ]}.
Proof.
  apply (update_does_not_resubmit parse_ex 7000 "P" "a1"
           {[ "a1" := rejected_ex ]} retitle_ex rejected_ex).
  - vm_compute; reflexivity.
  - vm_compute. discriminate.
Defined.

Lemma create_then_delete_witness :
  delete_achievement "P" "a1"
    (post_achievement parse_ex 1000 "a1" "P" create_ex ∅).2
  = (mkResponse 204 EmptyBody, ∅).
Proof.
  apply (create_then_delete parse_ex 1000 "a1" "P" create_ex ∅).
  vm_compute; reflexivity.
Defined.

Lemma verify_leaves_queue_witness :
  district_cup
  ∈ row <$> find_pending users_ex "cricket"
              (patch_achievement_verify 7000 users_ex "C" "a1"
                 (mkVerifyBody (JString "APPROVED") JUndefined) queue_ex).2
  ↔ district_cup ∈ row <$> find_pending users_ex "cricket" queue_ex
    ∧ Achievement.id district_cup ≠ "a1".
Proof.
  apply (verify_leaves_queue 7000 users_ex "C" "a1" "APPROVED" JUndefined
           queue_ex
           (patch_achievement_verify 7000 users_ex "C" "a1"
              (mkVerifyBody (JString "APPROVED") JUndefined) queue_ex).1).
  - apply queue_ex_well_keyed.
  - discriminate.
  - vm_compute; reflexivity.
  - vm_compute; reflexivity.
Defined.

Lemma carol_is_coach : coach_with_sport (Some carol) "cricket".
Proof. exists carol. by repeat split. Defined.

Lemma report_guard_and_null_rate_witness :
  get_reports_coach 0 users_ex schedules_ex (requests_ex 1 8) "P"
  = status_json 403 "Forbidden"
  ∧ ∃ rate,
      get_reports_coach 6000 users_ex schedules_ex (requests_ex 1 8) "C"
      = json (KpisBody (mkKpis rate)).
Proof.
  split.
  - destruct (report_guard_and_null_rate 0 users_ex schedules_ex
                (requests_ex 1 8) "P") as [Hno _].
    apply Hno. intros (s & c & Hc & Hr & _).
    vm_compute in Hc. injection Hc as <-. vm_compute in Hr. discriminate.
  - destruct (report_guard_and_null_rate 6000 users_ex schedules_ex
                (requests_ex 1 8) "C") as [_ Hcoach].
    destruct (Hcoach carol "cricket") as (rate & Hrate & _).
    + vm_compute; reflexivity.
    + apply carol_is_coach.
    + by exists rate.
Defined.


Lemma rate_exact_below_40_witness :
  get_reports_coach 0 users_ex schedules_ex (requests_ex 1 8) "C"
  = json (KpisBody (mkKpis (Some (number_of_Z
      (stated_rate
         (Z.of_nat (length (filter approved
            (filter (under_coach_since schedules_ex (User.id carol) 0)
                    (snd <$> map_to_list (requests_ex 1 8))))))
         (Z.of_nat (length
            (filter (under_coach_since schedules_ex (User.id carol) 0)
                    (snd <$> map_to_list (requests_ex 1 8)))))))))).
Proof.
  apply (rate_exact_below_40 0 users_ex schedules_ex (requests_ex 1 8) "C"
           carol "cricket").
  - vm_compute; reflexivity.
  - apply carol_is_coach.
  - vm_compute. lia.
Defined.

Lemma rate_near_up_to_500_witness :
  get_reports_coach 0 users_ex schedules_ex (requests_ex 23 40) "C"
  = json (KpisBody (mkKpis (Some (number_of_Z
      (stated_rate
         (Z.of_nat (length (filter approved
            (filter (under_coach_since schedules_ex (User.id carol) 0)
                    (snd <$> map_to_list (requests_ex 23 40))))))
         (Z.of_nat (length
            (filter (under_coach_since schedules_ex (User.id carol) 0)
                    (snd <$> map_to_list (requests_ex 23 40))))))))))
  ∨ get_reports_coach 0 users_ex schedules_ex (requests_ex 23 40) "C"
    = json (KpisBody (mkKpis (Some (number_of_Z
        (stated_rate
           (Z.of_nat (length (filter approved
              (filter (under_coach_since schedules_ex (User.id carol) 0)
                      (snd <$> map_to_list (requests_ex 23 40))))))
           (Z.of_nat (length
              (filter (under_coach_since schedules_ex (User.id carol) 0)
                      (snd <$> map_to_list (requests_ex 23 40)))))
         - 1))))).
Proof.
  apply (rate_near_up_to_500 0 users_ex schedules_ex (requests_ex 23 40) "C"
           carol "cricket").
  - vm_compute; reflexivity.
  - apply carol_is_coach.
  - vm_compute. lia.
Defined.

Lemma register_adds_a_player_witness :
  ∃ u,
    (post_auth_register lower_ex hash_ex sign_ex "salt" "P" register_ex ∅).2
    = <["P" := u]> ∅
    ∧ User.username (Profile.user (Account.profile u)) = "Alice"
    ∧ User.role (Profile.user (Account.profile u)) = "Player"
    ∧ Profile.email (Account.profile u) = "alice@example.org".
Proof.
  destruct (register_adds_a_player lower_ex hash_ex sign_ex "salt" "P"
              register_ex ∅) as [Hok _].
  destruct Hok
    as (username & email & password & u & Eu & Ee & _ & _ & Hdb & _ & _ & Hn
        & Hr & _ & Hm & _); [vm_compute; reflexivity |].
  injection Eu as <-. injection Ee as <-.
  exists u. exact (conj Hdb (conj Hn (conj Hr Hm))).
Defined.

Lemma accounts_ex_distinct : distinct_logins accounts_ex.
Proof.
  intros k1 k2 u1 u2 H1 H2 _. rewrite accounts_ex_alice in H1, H2.
  apply lookup_singleton_Some in H1 as [<- _].
  by apply lookup_singleton_Some in H2 as [<- _].
Defined.

(** "bob" registers into the table that holds "Alice": two accounts, and
    neither an email nor a username shared. *)
Lemma register_keeps_logins_distinct_witness :
  accounts2_ex !! "P" = Some alice_ex
  ∧ accounts2_ex !! "B" = Some bob_ex
  ∧ distinct_logins accounts2_ex.
Proof.
  split; [vm_compute; reflexivity |]. split; [vm_compute; reflexivity |].
  apply (register_keeps_logins_distinct lower_ex hash_ex sign_ex "pepper" "B"
           register_bob_ex accounts_ex).
  apply accounts_ex_distinct.
Defined.

Lemma login_refusals_alike_witness :
  post_auth_login lower_ex trim_ex compare_ex sign_ex number_text_ex
    (mkLoginBody (PString "alice@example.org") (PString "guess")) accounts_ex
  = user_error 401 "Invalid credentials"
  ∧ post_auth_login lower_ex trim_ex compare_ex sign_ex number_text_ex
      (mkLoginBody (PString "bob@example.org") (PString "guess")) accounts_ex
    = user_error 401 "Invalid credentials".
Proof.
  split.
  - apply (login_refusals_alike lower_ex trim_ex compare_ex sign_ex
             number_text_ex _ accounts_ex "guess");
      [reflexivity | reflexivity | discriminate |].
    intros k u Hk _. rewrite accounts_ex_alice in Hk.
    apply lookup_singleton_Some in Hk as [_ <-]. vm_compute; reflexivity.
  - apply (login_refusals_alike lower_ex trim_ex compare_ex sign_ex
             number_text_ex _ accounts_ex "guess");
      [reflexivity | reflexivity | discriminate |].
    intros k u Hk _. rewrite accounts_ex_alice in Hk.
    apply lookup_singleton_Some in Hk as [_ <-]. vm_compute; reflexivity.
Defined.

Lemma login_granted_against_hash_witness :
  ∃ k user,
    accounts_ex !! k = Some user
    ∧ compare_ex "s3cret" (Account.passwordHash user) = true
    ∧ u_cookie
        (post_auth_login lower_ex trim_ex compare_ex sign_ex number_text_ex
           (mkLoginBody (PString " Alice@Example.org ") (PString "s3cret"))
           accounts_ex)
      = SetSid (sign_ex (User.id (Profile.user (Account.profile user)))).
Proof.
  destruct (login_granted_against_hash lower_ex trim_ex compare_ex sign_ex
              number_text_ex
              (mkLoginBody (PString " Alice@Example.org ") (PString "s3cret"))
              accounts_ex)
    as (k & user & password & Hk & _ & Hpw & Hcmp & Hr);
    [vm_compute; reflexivity |].
  injection Hpw as <-. exists k, user.
  split; [exact Hk |]. split; [exact Hcmp |]. by rewrite Hr.
Defined.

Lemma login_by_username_needs_lower_case_witness :
  Profile.email (Account.profile alice_ex)
  = lower_ex (trim_ex (String_ number_text_ex (PString "alice@example.org"))).
Proof.
  apply (login_by_username_needs_lower_case lower_ex trim_ex compare_ex
           sign_ex number_text_ex
           (mkLoginBody (PString "alice@example.org") (PString "s3cret"))
           accounts_ex (Account.profile alice_ex)).
  - vm_compute; reflexivity.
  - vm_compute; reflexivity.
  - vm_compute; reflexivity.
  - vm_compute. discriminate.
Defined.

(** "bob" registers into the table that holds "Alice" and logs in. *)
Lemma register_then_login_witness :
  u_statusCode
    (post_auth_login lower_ex trim_ex compare_ex sign_ex number_text_ex
       (mkLoginBody (PString "Bob@Example.org") (PString "hunter2"))
       accounts2_ex) = 200%Z
  ∧ u_body
      (post_auth_login lower_ex trim_ex compare_ex sign_ex number_text_ex
         (mkLoginBody (PString "Bob@Example.org") (PString "hunter2"))
         accounts2_ex)
    = PublicUser (Account.profile bob_ex).
Proof.
  apply (register_then_login lower_ex trim_ex hash_ex compare_ex sign_ex
           number_text_ex "pepper" "B" register_bob_ex accounts_ex
           "Bob@Example.org" "hunter2").
  - vm_compute; reflexivity.
  - reflexivity.
  - reflexivity.
  - vm_compute; reflexivity.
  - vm_compute; reflexivity.
  - intros k u Hk. rewrite accounts_ex_alice in Hk.
    apply lookup_singleton_Some in Hk as [_ <-]. vm_compute. discriminate.
Defined.

Lemma register_then_me_witness :
  u_cookie
    (post_auth_register lower_ex hash_ex sign_ex "salt" "P" register_ex ∅).1
  = SetSid (sign_ex "P")
  ∧ requireAuth verify_ex (Some (sign_ex "P")) = inr "P"
  ∧ get_me "P"
      (post_auth_register lower_ex hash_ex sign_ex "salt" "P" register_ex ∅).2
    = mkUserResponse 200 NoCookie
        (u_body
           (post_auth_register lower_ex hash_ex sign_ex "salt" "P"
              register_ex ∅).1).
Proof.
  apply (register_then_me lower_ex hash_ex sign_ex verify_ex "salt" "P"
           register_ex ∅).
  - vm_compute; reflexivity.
  - vm_compute. discriminate.
  - vm_compute; reflexivity.
Defined.

Lemma mobile_is_ten_digits_witness :
  ∃ u,
    (patch_me parse_ex number_ex number_text_ex store_number_ex "P" mobile_ex
       accounts_ex).2 !! "P" = Some u
    ∧ Profile.mobile (Account.profile u) = Some "9876543210".
Proof.
  destruct (mobile_is_ten_digits parse_ex number_ex number_text_ex
              store_number_ex "P" accounts_ex mobile_ex "9876543210")
    as [_ Hok]; [reflexivity |].
  destruct Hok as [_ Hstored]; [vm_compute; reflexivity |].
  exact Hstored.
Defined.

Lemma anyone_becomes_coach_witness :
  coach_with_sport
    (users_of
       (patch_me parse_ex number_ex number_text_ex store_number_ex "P"
          (role_and_sport "Coach" "cricket") accounts_ex).2 !! "P")
    "cricket".
Proof.
  destruct (anyone_becomes_coach parse_ex number_ex number_text_ex
              store_number_ex "P" accounts_ex alice_ex "cricket")
    as [_ Hcoach].
  - vm_compute; reflexivity.
  - discriminate.
  - exact Hcoach.
Defined.

(** "Alice" updates her profile in the table that also holds "bob". *)
Lemma profile_update_keeps_identity_witness :
  (patch_me parse_ex number_ex number_text_ex store_number_ex "P" mobile_ex
     accounts2_ex).2 !! "B" = Some bob_ex
  ∧ ∃ u',
      (patch_me parse_ex number_ex number_text_ex store_number_ex "P"
         mobile_ex accounts2_ex).2 !! "P" = Some u'
      ∧ Profile.name (Account.profile u') = Some "Alice A."
      ∧ same_identity alice_ex u'.
Proof.
  destruct (profile_update_keeps_identity parse_ex number_ex number_text_ex
              store_number_ex "P" accounts2_ex mobile_ex) as [Hframe Hsame].
  split.
  - rewrite Hframe by discriminate. vm_compute; reflexivity.
  - destruct ((patch_me parse_ex number_ex number_text_ex store_number_ex
                 "P" mobile_ex accounts2_ex).2 !! "P") as [u'|] eqn:Hrow;
      [| vm_compute in Hrow; discriminate].
    exists u'. split; [reflexivity |].
    destruct (Hsame u' eq_refl) as (u & Hu & Hid).
    vm_compute in Hu. injection Hu as <-.
    split; [| exact Hid].
    vm_compute in Hrow. injection Hrow as <-. reflexivity.
Defined.

Lemma player_approves_own_achievement_witness :
  ∃ a',
    patch_achievement_verify 7000
      (users_of
         (patch_me parse_ex number_ex number_text_ex store_number_ex "P"
            (role_and_sport "Coach" (Achievement.sport pending_ex))
            accounts_ex).2)
      "P" "a1" (mkVerifyBody (JString "APPROVED") JUndefined)
      {[ "a1" := pending_ex ]}
    = (json (AchievementBody a'), <["a1" := a']> {[ "a1" := pending_ex ]})
    ∧ Achievement.status a' = "APPROVED"
    ∧ Achievement.verifiedById a'
      = Some (User.id (Profile.user (Account.profile alice_ex))).
Proof.
  apply (player_approves_own_achievement parse_ex number_ex number_text_ex
           store_number_ex "P" accounts_ex alice_ex 7000 "a1" JUndefined
           {[ "a1" := pending_ex ]} pending_ex).
  - vm_compute; reflexivity.
  - vm_compute; reflexivity.
  - vm_compute. discriminate.
Defined.

(** A Create with an empty sport. *)
Lemma create_rejects_blank_fields_witness :
  post_achievement parse_ex 1000 "a1" "P"
    (mkCreateBody (JString "State Champion") (JString "2024-01-10")
       JUndefined JUndefined (JString "") (JString "Delhi")) ∅
  = (status_json 400 "Missing required fields", ∅)
  ∧ error_class
      (post_achievement parse_ex 1000 "a1" "P"
         (mkCreateBody (JString "State Champion") (JString "2024-01-10")
            JUndefined JUndefined (JString "") (JString "Delhi")) ∅).1
    = Some ValidationError.
Proof.
  apply (create_rejects_blank_fields parse_ex 1000 "a1" "P"
           (mkCreateBody (JString "State Champion") (JString "2024-01-10")
              JUndefined JUndefined (JString "") (JString "Delhi")) ∅).
  right. right. left. right. right. reflexivity.
Defined.
